(** * SurveyEngine: sampling, quarantine and priority selection

    A shallow embedding of [SurveyEngine.js].  The engine object, the two
    browser stores, the clock and the random source are threaded through a
    small state-and-exception monad; JavaScript values are restricted to the
    fragment the engine actually inspects. *)

From Stdlib Require Import ZArith Lia Ascii String List.
From stdpp Require Import base option list gmap strings pretty.

Set Warnings "-register-all".

Local Open Scope string_scope.
Local Open Scope Z_scope.

(** ** JavaScript values and coercions *)

Module JS.

(** Numbers.  The engine only computes with integer quantities (parsed
    decimal integers, day counts, millisecond time stamps): [Int z] is the
    double holding the integer [z], taken in the range where double
    arithmetic is exact; [NaN] is kept apart.  Fractions and infinities are
    outside the embedding. *)
Inductive number := Int (z : Z) | NaN.

(** Values: primitives and arrays.  A string is a sequence of code units
    below 256, one per [ascii]. *)
Inductive value :=
| VUndefined
| VNull
| VBool (b : bool)
| VNumber (n : number)
| VStr (s : string)
| VArr (l : list value).

Definition VInt (z : Z) : value := VNumber (Int z).

(** [typeof v === "number"] *)
Definition is_number (v : value) : bool :=
  match v with VNumber _ => true | _ => false end.

(** ToBoolean: [undefined], [null], [false], [0], [NaN] and the empty string
    are falsy; everything else, arrays included, is truthy. *)
Definition ToBoolean (v : value) : bool :=
  match v with
  | VUndefined | VNull => false
  | VBool b => b
  | VNumber (Int z) => negb (z =? 0)
  | VNumber NaN => false
  | VStr s => negb (String.eqb s EmptyString)
  | VArr _ => true
  end.

(** [String(n)]: an integer prints in full decimal, as the program prints
    it below 1e21. *)
Definition number_to_string (n : number) : string :=
  match n with Int z => pretty z | NaN => "NaN" end.

(** ToString ([String(v)], and the string side of [+]).  An array prints as
    its elements joined by commas, [undefined] and [null] elements printing
    as nothing. *)
Fixpoint ToString (v : value) : string :=
  match v with
  | VUndefined => "undefined"
  | VNull => "null"
  | VBool true => "true"
  | VBool false => "false"
  | VNumber n => number_to_string n
  | VStr s => s
  | VArr l =>
      (fix join (l : list value) : string :=
         match l with
         | [] => EmptyString
         | x :: rest =>
             let sx := match x with
                       | VUndefined | VNull => EmptyString
                       | _ => ToString x
                       end in
             match rest with
             | [] => sx
             | _ :: _ => sx +:+ "," +:+ join rest
             end
         end) l
  end.

(** White space and line terminators among the code units below 256:
    TAB, LF, VT, FF, CR, SP and NBSP. *)
Definition is_white_space (c : ascii) : bool :=
  let n := nat_of_ascii c in
  ((9 <=? n) && (n <=? 13) || (n =? 32) || (n =? 160))%nat.

Fixpoint trim_start (s : string) : string :=
  match s with
  | String c s' => if is_white_space c then trim_start s' else s
  | EmptyString => EmptyString
  end.

Fixpoint trim_end (s : string) : string :=
  match s with
  | String c s' =>
      match trim_end s' with
      | EmptyString => if is_white_space c then EmptyString else String c EmptyString
      | t => String c t
      end
  | EmptyString => EmptyString
  end.

(** [s.trim()] *)
Definition trim (s : string) : string := trim_end (trim_start s).

(** The value of a decimal digit, if the code unit is one. *)
Definition digit_value (c : ascii) : option Z :=
  let n := nat_of_ascii c in
  if ((48 <=? n) && (n <=? 57))%nat then Some (Z.of_nat n - 48) else None.

(** Reads the longest prefix of decimal digits of [s]; [acc] is the value of
    the digits read so far, [None] while there is none. *)
Fixpoint parse_digits (acc : option Z) (s : string) : option Z :=
  match s with
  | String c s' =>
      match digit_value c with
      | Some d => parse_digits (Some (match acc with Some a => 10 * a + d | None => d end)) s'
      | None => acc
      end
  | EmptyString => acc
  end.

(** [parseInt(s, 10)] on a string: leading white space is skipped, one sign
    is accepted, then the longest run of decimal digits is read; without a
    digit the result is [NaN].  Trailing text is ignored.  The digits are
    read exactly, which is what the program does as long as the integer is
    one a double holds exactly. *)
Definition parseInt_string (s : string) : number :=
  let t := trim_start s in
  let '(sign, body) :=
    match t with
    | String "-" r => (-1, r)
    | String "+" r => (1, r)
    | _ => (1, t)
    end in
  match parse_digits None body with
  | Some z => Int (sign * z)
  | None => NaN
  end.

(** [parseInt(v, 10)]: the argument is first converted to a string. *)
Definition parseInt (v : value) : number := parseInt_string (ToString v).

(** [isNaN(n)] on a number. *)
Definition isNaN (n : number) : bool :=
  match n with NaN => true | Int _ => false end.

(** [a > b] and [a <= b] on numbers; any comparison with [NaN] is false. *)
Definition gt (a b : number) : bool :=
  match a, b with Int x, Int y => y <? x | _, _ => false end.

Definition le (a b : number) : bool :=
  match a, b with Int x, Int y => x <=? y | _, _ => false end.

(** [s.split(",")] *)
Fixpoint split_comma (s : string) : list string :=
  match s with
  | EmptyString => [EmptyString]
  | String c s' =>
      if Ascii.eqb c "," then EmptyString :: split_comma s'
      else match split_comma s' with
           | t :: ts => String c t :: ts
           | [] => [String c EmptyString]
           end
  end.

End JS.

Export JS.

(** ** Browser environment and engine state *)

(** The record the engine keeps under a quarantine key:
    [{ value: ..., expiry: ... }], the expiry (epoch milliseconds) being
    optional. *)
Record item := Item { item_value : value; item_expiry : option Z }.

(** A stored string, represented by what [JSON.parse] makes of it: either
    the text is not JSON ([Unparsable], which covers the empty string), or
    it is the serialization of an [item].  JSON texts of another shape (a
    bare number, [null], an array, an expiry that is not an integer) are
    outside the embedding; on [null] the program's read fails with a
    [TypeError]. *)
Inductive stored :=
| Unparsable (text : string)
| Json (it : item).

(** What survives [JSON.stringify] followed by [JSON.parse]: [NaN] and
    [undefined] array elements come back as [null]; an [undefined] property
    is dropped and reads back as [undefined]. *)
Fixpoint jsonify (v : value) : value :=
  match v with
  | VNumber NaN => VNull
  | VArr l =>
      VArr (map (fun x => match x with VUndefined => VNull | _ => jsonify x end) l)
  | _ => v
  end.

Definition JSON_stringify (it : item) : stored :=
  Json (Item (jsonify (item_value it)) (item_expiry it)).

(** A survey definition of the registry.  Only these four fields are read by
    the engine; the others (form id, name, template key, delay) travel along
    untouched. *)
Record Survey := mkSurvey {
  survey_id : value;
  percentage : value;
  quarantine : value;
  priority : value;
  passthrough : list (string * value)
}.

Definition set_priority (p : value) (cfg : Survey) : Survey :=
  mkSurvey (survey_id cfg) (percentage cfg) (quarantine cfg) p (passthrough cfg).

(** An entry of the trace: a call of [emit] with its type and payload, or a
    call of [log] with its message. *)
Inductive output :=
| Event (type : string) (payload : list (string * value))
| Logged (msg : string).

(** The mutable world of one engine: the registry held by the engine object,
    the durable and the session store, the clock and the random source.
    [clock n] is the result of the [n]-th [new Date().getTime()], and
    [random n] the result of the [n]-th [parseInt(Math.random() * 100, 10)];
    [ticks] and [draws] count how many of each were consumed.  [trace] is
    the list of [emit] and [log] calls made so far, oldest first.  The
    registry is read through its own properties only: an id that names a
    member the registry object inherits is outside the embedding.  The
    calls into the two stores always succeed. *)
Record state := mkState {
  surveyConfigurations : gmap string Survey;
  localStorage : gmap string stored;
  sessionStorage : gmap string stored;
  clock : nat -> Z;
  ticks : nat;
  random : nat -> Z;
  draws : nat;
  trace : list output
}.

(** How a callback invocation ends. *)
Inductive completion := Returns | Throws (v : value).

(** [this.config].  A callback is an observer: it may look at anything and
    end either way, but it does not write the engine's state. *)
Record Config := mkConfig {
  userSampling : bool;
  quarantineKeyPrefix : string;
  onEvent : option (state -> string -> list (string * value) -> completion);
  logger : option (state -> string -> completion)
}.

(** ** Computations: state plus exceptions *)

Inductive exn :=
| SyntaxError (text : string)
| Thrown (v : value).

Inductive result (A : Type) := Ok (a : A) | Throw (e : exn).
Arguments Ok {A} a.
Arguments Throw {A} e.

Definition M (A : Type) : Type := state -> result A * state.

#[global] Instance M_ret : MRet M := fun A a st => (Ok a, st).

#[global] Instance M_bind : MBind M := fun A B f m st =>
  match m st with
  | (Ok a, st') => f a st'
  | (Throw e, st') => (Throw e, st')
  end.

Definition throw {A} (e : exn) : M A := fun st => (Throw e, st).

(** [try { m } catch (e) { h e }] *)
Definition try_catch {A} (m : M A) (h : exn -> M A) : M A := fun st =>
  match m st with
  | (Ok a, st') => (Ok a, st')
  | (Throw e, st') => h e st'
  end.

Definition gets {A} (f : state -> A) : M A := fun st => (Ok (f st), st).
Definition modify (f : state -> state) : M unit := fun st => (Ok tt, f st).

Definition set_surveyConfigurations (r : gmap string Survey) (st : state) : state :=
  mkState r (localStorage st) (sessionStorage st)
          (clock st) (ticks st) (random st) (draws st) (trace st).

Definition set_localStorage (l : gmap string stored) (st : state) : state :=
  mkState (surveyConfigurations st) l (sessionStorage st)
          (clock st) (ticks st) (random st) (draws st) (trace st).

Definition set_sessionStorage (s : gmap string stored) (st : state) : state :=
  mkState (surveyConfigurations st) (localStorage st) s
          (clock st) (ticks st) (random st) (draws st) (trace st).

Definition set_ticks (n : nat) (st : state) : state :=
  mkState (surveyConfigurations st) (localStorage st) (sessionStorage st)
          (clock st) n (random st) (draws st) (trace st).

Definition set_draws (n : nat) (st : state) : state :=
  mkState (surveyConfigurations st) (localStorage st) (sessionStorage st)
          (clock st) (ticks st) (random st) n (trace st).

Definition set_trace (t : list output) (st : state) : state :=
  mkState (surveyConfigurations st) (localStorage st) (sessionStorage st)
          (clock st) (ticks st) (random st) (draws st) t.

(** [new Date().getTime()] *)
Definition Date_getTime : M Z := fun st =>
  (Ok (clock st (ticks st)), set_ticks (S (ticks st)) st).

(** [parseInt(Math.random() * 100, 10)] *)
Definition random_percent : M Z := fun st =>
  (Ok (random st (draws st)), set_draws (S (draws st)) st).

Definition record (o : output) : M unit :=
  modify (fun st => set_trace (trace st ++ [o]) st).

(** Invoking a callback: its completion becomes the computation's. *)
Definition invoke (c : completion) : M unit :=
  match c with
  | Returns => mret tt
  | Throws v => throw (Thrown v)
  end.

(** ** The engine *)

Module SurveyEngine.

(** [emit(type, payload)]: the callback, when there is one, runs inside
    [try]/[catch] and whatever it throws is dropped. *)
Definition emit (config : Config) (type : string)
    (payload : list (string * value)) : M unit :=
  record (Event type payload);;
  match onEvent config with
  | Some callback =>
      try_catch (st ← gets id; invoke (callback st type payload))
                (fun _ => mret tt)
  | None => mret tt
  end.

(** [log(msg)], with the same isolation. *)
Definition log (config : Config) (msg : string) : M unit :=
  record (Logged msg);;
  match logger config with
  | Some callback =>
      try_catch (st ← gets id; invoke (callback st msg))
                (fun _ => mret tt)
  | None => mret tt
  end.

(** [setWithExpiry(key, value, days)]: a truthy [days] (a non-zero integer)
    writes the durable store with an expiry of [days] days from now; a falsy
    one (zero or [NaN]) writes the session store without expiry. *)
Definition setWithExpiry (key : string) (v : value) (days : number) : M unit :=
  match days with
  | Int d =>
      if negb (d =? 0) then
        now ← Date_getTime;
        let ttl := d * 24 * 60 * 60 * 1000 in
        let it := Item v (Some (now + ttl)) in
        modify (fun st => set_localStorage (<[key := JSON_stringify it]> (localStorage st)) st)
      else
        let it := Item v None in
        modify (fun st => set_sessionStorage (<[key := JSON_stringify it]> (sessionStorage st)) st)
  | NaN =>
      let it := Item v None in
      modify (fun st => set_sessionStorage (<[key := JSON_stringify it]> (sessionStorage st)) st)
  end.

(** Truthiness of what [getItem] returns: [null] and the empty string are
    falsy. *)
Definition stored_truthy (s : option stored) : bool :=
  match s with
  | None => false
  | Some (Unparsable text) => negb (String.eqb text EmptyString)
  | Some (Json _) => true
  end.

(** [JSON.parse(itemStr)] *)
Definition JSON_parse (s : stored) : M item :=
  match s with
  | Unparsable text => throw (SyntaxError text)
  | Json it => mret it
  end.

(** [getWithExpiry(key)]: the durable store is consulted first, then the
    session store; a record whose expiry has passed makes the durable entry
    be removed, and [null] is returned. *)
Definition getWithExpiry (key : string) : M value :=
  l ← gets (fun st => localStorage st !! key);
  s ← gets (fun st => sessionStorage st !! key);
  let itemStr := if stored_truthy l then l else s in
  match itemStr with
  | Some text =>
      if negb (stored_truthy itemStr) then mret VNull
      else
        it ← JSON_parse text;
        now ← Date_getTime;
        match item_expiry it with
        | Some expiry =>
            if negb (expiry =? 0) && (expiry <? now) then
              modify (fun st => set_localStorage (delete key (localStorage st)) st);;
              mret VNull
            else mret (item_value it)
        | None => mret (item_value it)
        end
  | None => mret VNull
  end.

(** [passesStorageRules(survey)]: quarantine first, then percentage
    sampling with its quarantine side effects. *)
Definition passesStorageRules (config : Config) (survey : Survey) : M bool :=
  let key := quarantineKeyPrefix config +:+ ToString (survey_id survey) in
  q ← getWithExpiry key;
  let quarantined := ToBoolean q in
  if quarantined then
    emit config "survey_quarantined_block" [("survey_id", survey_id survey)];;
    log config ("SURVEY: survey " +:+ ToString (survey_id survey) +:+ " is quarantined");;
    mret false
  else
    let pct := parseInt (percentage survey) in
    let pct := if isNaN pct then Int 0 else pct in
    r ← random_percent;
    let sampled := le (Int r) pct in
    if sampled then
      let qDays := parseInt (quarantine survey) in
      (if negb (isNaN qDays) && gt qDays (Int 0) then
         setWithExpiry key (VStr "true") qDays;;
         emit config "survey_quarantine_set_on_sample"
              [("survey_id", survey_id survey); ("days", VNumber qDays)]
       else mret tt);;
      emit config "survey_included_by_sampling"
           [("survey_id", survey_id survey); ("percentage", VNumber pct)];;
      mret true
    else if userSampling config then
      let qDays2 := parseInt (quarantine survey) in
      (if negb (isNaN qDays2) && gt qDays2 (Int 0) then
         setWithExpiry key (VStr "true") qDays2
       else mret tt);;
      emit config "survey_excluded_quarantined_user_sampling"
           [("survey_id", survey_id survey); ("percentage", VNumber pct)];;
      log config ("SURVEY: survey " +:+ ToString (survey_id survey)
                  +:+ " is excluded by sampling, and quarantined (user sampling)");;
      mret false
    else
      emit config "survey_excluded_not_quarantined_event_sampling"
           [("survey_id", survey_id survey); ("percentage", VNumber pct)];;
      log config ("SURVEY: survey " +:+ ToString (survey_id survey)
                  +:+ " is excluded by sampling, and not quarantined (event sampling)");;
      mret false.

(** [.filter(Boolean)] on strings keeps the non-empty ones. *)
Definition filter_Boolean (l : list string) : list string :=
  List.filter (fun s => ToBoolean (VStr s)) l.

(** [normalizeSurveyIdToArray(candidateSurveyIds)] *)
Definition normalizeSurveyIdToArray (candidateSurveyIds : value) : list string :=
  if negb (ToBoolean candidateSurveyIds) then []
  else match candidateSurveyIds with
       | VStr s => filter_Boolean (map (fun x => trim x) (split_comma s))
       | VArr l => filter_Boolean (map (fun x => trim (ToString x)) l)
       | v => filter_Boolean [trim (ToString v)]
       end.

(** The body of the [for] loop of [chooseSurvey], iterated over the ids that
    are left; [maxPriority] and [chosen] are the loop's two variables.  The
    priority of a resolved entry is normalized in place in the registry
    when it is not yet a number; the storage rules are evaluated only when
    the priority beats [maxPriority] (the [&&] of the source). *)
Fixpoint chooseSurvey_loop (config : Config) (ids : list string)
    (maxPriority : number) (chosen : option Survey)
    : M (number * option Survey) :=
  match ids with
  | [] => mret (maxPriority, chosen)
  | surveyId :: rest =>
      cfg ← gets (fun st => surveyConfigurations st !! surveyId);
      match cfg with
      | None =>
          emit config "survey_missing_config" [("survey_id", VStr surveyId)];;
          chooseSurvey_loop config rest maxPriority chosen
      | Some cfg =>
          cfg ← (match priority cfg with
                 | VNumber _ => mret cfg
                 | p =>
                     let cfg' := set_priority (VNumber (parseInt p)) cfg in
                     modify (fun st => set_surveyConfigurations
                               (<[surveyId := cfg']> (surveyConfigurations st)) st);;
                     mret cfg'
                 end : M Survey);
          let p := match priority cfg with VNumber n => n | _ => NaN end in
          if gt p maxPriority then
            passes ← passesStorageRules config cfg;
            if (passes : bool) then chooseSurvey_loop config rest p (Some cfg)
            else chooseSurvey_loop config rest maxPriority chosen
          else chooseSurvey_loop config rest maxPriority chosen
      end
  end.

(** [chooseSurvey(candidateSurveyIds)] *)
Definition chooseSurvey (config : Config) (candidateSurveyIds : value)
    : M (option Survey) :=
  let ids := normalizeSurveyIdToArray candidateSurveyIds in
  match ids with
  | [] => mret None
  | _ :: _ =>
      r ← chooseSurvey_loop config ids (Int (-1)) None;
      match snd r with
      | Some ch =>
          emit config "survey_chosen"
               [("survey_id", survey_id ch); ("priority", priority ch)];;
          mret (Some ch)
      | None =>
          emit config "survey_none_chosen" [("candidates", VArr (map VStr ids))];;
          mret None
      end
  end.

Section Quarantine.

(** [s > 0] for a string [s] compares the number the whole string denotes
    (fractions, exponents and radix prefixes included, rounded to a double),
    which is more than this embedding's numbers hold: the outcome of that
    comparison is a parameter. *)
Variable string_gt_zero : string -> bool.

(** [v > 0] *)
Definition gt_zero (v : value) : bool :=
  match v with
  | VUndefined => false
  | VNull => false
  | VBool b => b
  | VNumber n => gt n (Int 0)
  | VStr s => string_gt_zero s
  | VArr _ => string_gt_zero (ToString v)
  end.

(** [quarantineSurvey(surveyId, days)] *)
Definition quarantineSurvey (config : Config) (surveyId days : value) : M unit :=
  let sid := ToString surveyId in
  let key := quarantineKeyPrefix config +:+ sid in
  if ToBoolean days && gt_zero days then
    setWithExpiry key (VStr "true") (parseInt days);;
    emit config "survey_quarantined"
         [("survey_id", VStr sid); ("days", days); ("storage", VStr "local")]
  else
    setWithExpiry key (VStr "true") (Int 0);;
    emit config "survey_quarantined"
         [("survey_id", VStr sid); ("days", VInt 0); ("storage", VStr "session")].

End Quarantine.

End SurveyEngine.

Export SurveyEngine.

(** ** Vocabulary of the statements *)

(** The storage key of a survey: prefix, then the [survey_id] field. *)
Definition quarantine_key (config : Config) (survey : Survey) : string :=
  quarantineKeyPrefix config +:+ ToString (survey_id survey).

(** The string a quarantine read works on: the durable one when it is
    truthy, the session one otherwise. *)
Definition lookup_entry (key : string) (st : state) : option stored :=
  if stored_truthy (localStorage st !! key) then localStorage st !! key
  else sessionStorage st !! key.

(** A record has expired at [now] when it carries a truthy expiry that lies
    before [now]. *)
Definition expired (now : Z) (it : item) : bool :=
  match item_expiry it with
  | Some e => negb (e =? 0) && (e <? now)
  | None => false
  end.

(** What a stored string means to the eligibility check at time [now]. *)
Inductive status := Blocking | Clear | Corrupt.

Definition entry_status (now : Z) (s : option stored) : status :=
  match s with
  | None => Clear
  | Some (Unparsable text) => if String.eqb text EmptyString then Clear else Corrupt
  | Some (Json it) =>
      if expired now it then Clear
      else if ToBoolean (item_value it) then Blocking else Clear
  end.

(** The status of [key] for a read that starts in [st]. *)
Definition quarantine_status (key : string) (st : state) : status :=
  entry_status (clock st (ticks st)) (lookup_entry key st).

(** The sampling threshold of a survey. *)
Definition threshold (survey : Survey) : number :=
  if isNaN (parseInt (percentage survey)) then Int 0 else parseInt (percentage survey).

(** The quarantine length a sampling write uses, when there is one. *)
Definition quarantine_days (survey : Survey) : option Z :=
  match parseInt (quarantine survey) with
  | Int q => if 0 <? q then Some q else None
  | NaN => None
  end.

(** A registry entry after the in-place normalization of its priority, and
    the number the loop compares. *)
Definition normalize (cfg : Survey) : Survey :=
  match priority cfg with
  | VNumber _ => cfg
  | p => set_priority (VNumber (parseInt p)) cfg
  end.

Definition priority_number (cfg : Survey) : number :=
  match priority (normalize cfg) with VNumber n => n | _ => NaN end.

(** The state in which the loop, arriving in [st0] at [surveyId] resolved to
    [cfg], evaluates the candidate. *)
Definition arrive (surveyId : string) (cfg : Survey) (st0 : state) : state :=
  set_surveyConfigurations (<[surveyId := normalize cfg]> (surveyConfigurations st0)) st0.

(** The loop of [chooseSurvey], started on the candidate list [pre ++ surveyId :: post]
    in [st], reaches [surveyId] with running maximum [m0] and best candidate
    [c0], resolves it to [cfg] and is then in state [st1]. *)
Definition reaches (config : Config) (st : state) (pre : list string)
    (surveyId : string) (m0 : number) (c0 : option Survey)
    (cfg : Survey) (st1 : state) : Prop :=
  exists st0 raw,
    chooseSurvey_loop config pre (Int (-1)) None st = (Ok (m0, c0), st0) /\
    surveyConfigurations st0 !! surveyId = Some raw /\
    cfg = normalize raw /\ st1 = arrive surveyId raw st0.

(** Every stored string is empty or the serialization of a record. *)
Definition readable_entry (s : stored) : Prop :=
  match s with Unparsable text => text = EmptyString | Json _ => True end.

Definition readable (st : state) : Prop :=
  map_Forall (fun _ s => readable_entry s) (localStorage st) /\
  map_Forall (fun _ s => readable_entry s) (sessionStorage st).

Definition add_trace (o : list output) (st : state) : state :=
  set_trace (trace st ++ o) st.

Definition ms_per_day : Z := 24 * 60 * 60 * 1000.

(** The state a quarantine read of [key] leaves behind. *)
Definition after_read (key : string) (st : state) : state :=
  snd (getWithExpiry key st).

(** The durable write of a sampling quarantine of [q] days made in [st]. *)
Definition durable_write (key : string) (q : Z) (st : state) : state :=
  set_localStorage
    (<[key := Json (Item (VStr "true") (Some (clock st (ticks st) + q * ms_per_day)))]>
       (localStorage st))
    (set_ticks (S (ticks st)) st).

(** The draw an eligibility check started in [st] makes, if it gets there. *)
Definition next_draw (st : state) : Z := random st (draws st).

(** The running maximum is an integer not below the sentinel, and it is the
    priority of the best candidate whenever there is one. *)
Definition best_inv (m : number) (c : option Survey) : Prop :=
  exists z, m = Int z /\
    match c with
    | None => z = -1
    | Some ch => priority ch = VInt z /\ -1 < z
    end.

(** A run of [chooseSurvey] on [candidates] from [st] selects [ch] in state
    [st1]: the loop reaches it there, its priority beats the running
    maximum, and its eligibility check, run in [st1], returns [true]. *)
Definition selected_at (config : Config) (candidates : value) (st : state)
    (ch : Survey) (st1 : state) : Prop :=
  exists pre surveyId post m0 c0,
    normalizeSurveyIdToArray candidates = (pre ++ surveyId :: post)%list /\
    reaches config st pre surveyId m0 c0 ch st1 /\
    gt (priority_number ch) m0 = true /\
    fst (passesStorageRules config ch st1) = Ok true.

(** ** Sample data *)

(** The configuration the constructor installs when no option is given. *)
Definition default_config : Config := mkConfig false "neb_" None None.

Definition demo_survey (id pct days : string) (prio : value) : Survey :=
  mkSurvey (VStr id) (VStr pct) (VStr days) prio [].

Definition demo_registry : gmap string Survey :=
  <["A" := demo_survey "A" "100" "21" (VInt 1)]>
    (<["B" := demo_survey "B" "100" "0" (VStr "2")]> ∅).

(** Empty stores, a clock that stands at 1000 and a source that always
    draws [r]. *)
Definition demo_state (r : Z) : state :=
  mkState demo_registry ∅ ∅ (fun _ => 1000) 0 (fun _ => r) 0 [].

(** The same with survey [A] under a durable quarantine that ends at
    [expiry]. *)
Definition demo_quarantined (expiry : Z) : state :=
  set_localStorage {["neb_A" := Json (Item (VStr "true") (Some expiry))]} (demo_state 50).

(** A clock that reads 0 the first time and 1000000000 ever after. *)
Definition jump_clock (n : nat) : Z :=
  match n with O => 0 | S _ => 1000000000 end.

(** The state after [quarantineSurvey("A", 1)] at time 0 followed by
    [quarantineSurvey("A", 0)]: the key of [A] is held by both stores. *)
Definition shadowed_state : state :=
  snd (quarantineSurvey (fun _ => false) default_config (VStr "A") (VInt 0)
         (snd (quarantineSurvey (fun _ => false) default_config (VStr "A") (VInt 1)
                 (mkState demo_registry ∅ ∅ jump_clock 0 (fun _ => 50) 0 [])))).

(** A registry whose key [A] holds a survey with [survey_id] [X]. *)
Definition renamed_state : state :=
  mkState {["A" := demo_survey "X" "100" "0" (VInt 1)]} ∅ ∅
          (fun _ => 1000) 0 (fun _ => 50) 0 [].

(** Survey [A] with a damaged string under its key in the durable store. *)
Definition corrupted_state : state :=
  set_localStorage {["neb_A" := Unparsable "{oops"]} (demo_state 50).

(** A registry with a survey of priority -1 and one without priority,
    both sampled at 100 percent. *)
Definition unranked_state : state :=
  mkState (<["N" := demo_survey "N" "100" "0" (VInt (-1))]>
             (<["U" := demo_survey "U" "100" "0" VUndefined]> ∅))
          ∅ ∅ (fun _ => 1000) 0 (fun _ => 50) 0 [].

(** ** Vocabulary of the further properties *)

(** What a selection may do to the world between [st] and [st']: the clock
    and the random source are only consumed, the session store is as it
    was, the trace is extended, a registry entry is kept or has its priority
    normalized, and a durable entry is kept, removed, or replaced by a fresh
    quarantine record. *)
Record evolves (st st' : state) : Prop := {
  evolves_clock : clock st' = clock st;
  evolves_random : random st' = random st;
  evolves_ticks : (ticks st <= ticks st')%nat;
  evolves_draws : (draws st <= draws st')%nat;
  evolves_trace : exists more, trace st' = (trace st ++ more)%list;
  evolves_session : sessionStorage st' = sessionStorage st;
  evolves_registry : forall k,
    surveyConfigurations st' !! k = surveyConfigurations st !! k \/
    exists raw, surveyConfigurations st !! k = Some raw /\
                surveyConfigurations st' !! k = Some (normalize raw);
  evolves_local : forall k,
    localStorage st' !! k = localStorage st !! k \/
    localStorage st' !! k = None \/
    exists e, localStorage st' !! k = Some (Json (Item (VStr "true") (Some e)))
}.

(** The session write of a quarantine made in [st]. *)
Definition session_write (key : string) (st : state) : state :=
  set_sessionStorage (<[key := Json (Item (VStr "true") None)]> (sessionStorage st)) st.

(** The [survey_quarantined] event of [quarantineSurvey]. *)
Definition quarantined_event (sid : string) (days : value) (storage : string) : output :=
  Event "survey_quarantined"
        [("survey_id", VStr sid); ("days", days); ("storage", VStr storage)].

(** [setSurveyConfigurations(configurations)]: an object replaces the
    registry wholesale, anything else installs the empty registry.  [None]
    stands for an argument that is falsy or not an object. *)
Definition setSurveyConfigurations (configurations : option (gmap string Survey))
    : M unit :=
  modify (set_surveyConfigurations
            (match configurations with Some registry => registry | None => ∅ end)).

(** The integers a double holds exactly.  Within this range the numbers of
    the embedding, their decimal printing and the parse of a decimal string
    agree with the program's; beyond it the program rounds, and prints in
    exponent form from 1e21 on. *)
Definition safe_integer (z : Z) : Prop := - 2 ^ 53 < z < 2 ^ 53.

(** The comparison [s > 0] on the strings of the examples: [21], [0.5] and
    [2.5] denote numbers above zero. *)
Definition example_gt_zero (s : string) : bool :=
  String.eqb s "21" || String.eqb s "0.5" || String.eqb s "2.5".

(** The names a plain object inherits from [Object.prototype]: the read
    [this.surveyConfigurations[surveyId]] finds a member under each of them
    although the registry has no entry of that name. *)
Definition Object_prototype_members : list string :=
  ["constructor"; "__defineGetter__"; "__defineSetter__"; "hasOwnProperty";
   "__lookupGetter__"; "__lookupSetter__"; "isPrototypeOf";
   "propertyIsEnumerable"; "toString"; "valueOf"; "__proto__";
   "toLocaleString"].

(** * Properties *)

(** ** The embedding at work *)

Example parseInt_samples :
  parseInt (VStr "100") = Int 100 /\ parseInt (VStr " 21 days") = Int 21 /\
  parseInt (VStr "-7") = Int (-7) /\ parseInt (VStr "abc") = NaN /\
  parseInt VUndefined = NaN /\ parseInt (VInt 42) = Int 42 /\
  parseInt (VStr "1e3") = Int 1 /\ parseInt (VBool true) = NaN.
Proof. repeat split; reflexivity. Qed.

Example normalize_samples :
  normalizeSurveyIdToArray (VStr " 1, 2 ,,3") = ["1"; "2"; "3"] /\
  normalizeSurveyIdToArray (VArr [VInt 2467; VStr " x "; VNull]) = ["2467"; "x"; "null"] /\
  normalizeSurveyIdToArray (VInt 27152) = ["27152"] /\
  normalizeSurveyIdToArray VNull = [] /\
  normalizeSurveyIdToArray (VInt 0) = [].
Proof. repeat split; reflexivity. Qed.

(** With [A] of priority 1 and [B] of priority 2, both at 100 percent and
    both listed, [B] is returned; [A] is sampled (and quarantined for its 21
    days) on the way. *)
Example chooseSurvey_sample :
  let r := chooseSurvey default_config (VStr "A,B") (demo_state 50) in
  fst r = Ok (Some (demo_survey "B" "100" "0" (VInt 2))) /\
  trace (snd r) =
    [Event "survey_quarantine_set_on_sample" [("survey_id", VStr "A"); ("days", VInt 21)];
     Event "survey_included_by_sampling" [("survey_id", VStr "A"); ("percentage", VInt 100)];
     Event "survey_included_by_sampling" [("survey_id", VStr "B"); ("percentage", VInt 100)];
     Event "survey_chosen" [("survey_id", VStr "B"); ("priority", VInt 2)]].
Proof. vm_compute. split; reflexivity. Qed.


(** ** Running computations *)

Lemma run_bind {A B} (m : M A) (f : A -> M B) (st : state) :
  (m ≫= f) st = match m st with
                | (Ok a, st') => f a st'
                | (Throw e, st') => (Throw e, st')
                end.
Proof. reflexivity. Qed.

Lemma run_bind_ok {A B} (m : M A) (f : A -> M B) st a st' :
  m st = (Ok a, st') -> (m ≫= f) st = f a st'.
Proof. intros H. rewrite run_bind, H. reflexivity. Qed.

Lemma run_bind_throw {A B} (m : M A) (f : A -> M B) st e st' :
  m st = (Throw e, st') -> (m ≫= f) st = (Throw e, st').
Proof. intros H. rewrite run_bind, H. reflexivity. Qed.

Lemma bind_ext {A B} (m1 m2 : M A) (f1 f2 : A -> M B) st :
  m1 st = m2 st -> (forall a st', f1 a st' = f2 a st') ->
  (m1 ≫= f1) st = (m2 ≫= f2) st.
Proof.
  intros Hm Hf. rewrite !run_bind, Hm.
  destruct (m2 st) as [[a|e] st']; [apply Hf | reflexivity].
Qed.

(** Callbacks cannot break [emit] or [log]: both return normally and only
    extend the trace. *)
Lemma emit_run config type payload st :
  emit config type payload st = (Ok tt, add_trace [Event type payload] st).
Proof.
  unfold emit. destruct (onEvent config) as [callback|]; [|reflexivity].
  rewrite run_bind. cbn. unfold try_catch. rewrite run_bind. cbn.
  match goal with |- context [callback ?s type payload] =>
    destruct (callback s type payload) end; reflexivity.
Qed.

Lemma log_run config msg st :
  log config msg st = (Ok tt, add_trace [Logged msg] st).
Proof.
  unfold log. destruct (logger config) as [callback|]; [|reflexivity].
  rewrite run_bind. cbn. unfold try_catch. rewrite run_bind. cbn.
  match goal with |- context [callback ?s msg] =>
    destruct (callback s msg) end; reflexivity.
Qed.

Lemma setWithExpiry_run key v days st :
  setWithExpiry key v days st =
  match days with
  | Int d =>
      if d =? 0 then
        (Ok tt, set_sessionStorage
                  (<[key := JSON_stringify (Item v None)]> (sessionStorage st)) st)
      else
        (Ok tt, set_localStorage
                  (<[key := JSON_stringify (Item v (Some (clock st (ticks st) + d * ms_per_day)))]>
                     (localStorage st))
                  (set_ticks (S (ticks st)) st))
  | NaN =>
      (Ok tt, set_sessionStorage
                (<[key := JSON_stringify (Item v None)]> (sessionStorage st)) st)
  end.
Proof.
  unfold setWithExpiry, ms_per_day. destruct days as [d|]; [|reflexivity].
  destruct (d =? 0); cbn; [reflexivity|].
  replace (d * 24 * 60 * 60 * 1000) with (d * (24 * 60 * 60 * 1000)) by lia.
  reflexivity.
Qed.

Lemma getWithExpiry_run key st :
  getWithExpiry key st =
  match lookup_entry key st with
  | None => (Ok VNull, st)
  | Some (Unparsable text) =>
      if String.eqb text EmptyString then (Ok VNull, st)
      else (Throw (SyntaxError text), st)
  | Some (Json it) =>
      let st1 := set_ticks (S (ticks st)) st in
      if expired (clock st (ticks st)) it
      then (Ok VNull, set_localStorage (delete key (localStorage st)) st1)
      else (Ok (item_value it), st1)
  end.
Proof.
  unfold getWithExpiry, lookup_entry.
  cbv [mbind M_bind gets mret M_ret].
  destruct (stored_truthy (localStorage st !! key)) eqn:Hl.
  - destruct (localStorage st !! key) as [[text|it]|]; cbn in Hl |- *.
    + destruct (String.eqb text EmptyString); reflexivity.
    + unfold expired. destruct (item_expiry it) as [e|]; [|reflexivity].
      destruct (negb (e =? 0) && (e <? clock st (ticks st))); reflexivity.
    + reflexivity.
  - destruct (sessionStorage st !! key) as [[text|it]|]; cbn.
    + destruct (String.eqb text EmptyString); reflexivity.
    + unfold expired. destruct (item_expiry it) as [e|]; [|reflexivity].
      destruct (negb (e =? 0) && (e <? clock st (ticks st))); reflexivity.
    + reflexivity.
Qed.

Lemma sampling_write_run key survey st :
  (if negb (isNaN (parseInt (quarantine survey))) && gt (parseInt (quarantine survey)) (Int 0)
   then setWithExpiry key (VStr "true") (parseInt (quarantine survey))
   else mret tt) st
  = (Ok tt, match quarantine_days survey with
            | Some q => durable_write key q st
            | None => st
            end).
Proof.
  unfold quarantine_days.
  destruct (parseInt (quarantine survey)) as [q|]; cbn [isNaN negb andb gt]; [|reflexivity].
  destruct (0 <? q) eqn:Hq; [|reflexivity].
  rewrite setWithExpiry_run.
  destruct (q =? 0) eqn:Hz; [lia|reflexivity].
Qed.

Lemma sampling_write_emit_run config key survey st :
  (if negb (isNaN (parseInt (quarantine survey))) && gt (parseInt (quarantine survey)) (Int 0)
   then setWithExpiry key (VStr "true") (parseInt (quarantine survey));;
        emit config "survey_quarantine_set_on_sample"
             [("survey_id", survey_id survey);
              ("days", VNumber (parseInt (quarantine survey)))]
   else mret tt) st
  = (Ok tt, match quarantine_days survey with
            | Some q =>
                add_trace [Event "survey_quarantine_set_on_sample"
                             [("survey_id", survey_id survey); ("days", VInt q)]]
                  (durable_write key q st)
            | None => st
            end).
Proof.
  unfold quarantine_days.
  destruct (parseInt (quarantine survey)) as [q|]; cbn [isNaN negb andb gt]; [|reflexivity].
  destruct (0 <? q) eqn:Hq; [|reflexivity].
  rewrite run_bind, setWithExpiry_run.
  destruct (q =? 0) eqn:Hz; [lia|]. rewrite emit_run. reflexivity.
Qed.

Lemma sampling_run config survey st :
  (let pct := threshold survey in
   r ← random_percent;
   let sampled := le (Int r) pct in
   if sampled then
     (if negb (isNaN (parseInt (quarantine survey))) && gt (parseInt (quarantine survey)) (Int 0)
      then setWithExpiry (quarantine_key config survey) (VStr "true") (parseInt (quarantine survey));;
           emit config "survey_quarantine_set_on_sample"
                [("survey_id", survey_id survey);
                 ("days", VNumber (parseInt (quarantine survey)))]
      else mret tt);;
     emit config "survey_included_by_sampling"
          [("survey_id", survey_id survey); ("percentage", VNumber pct)];;
     mret true
   else if userSampling config then
     (if negb (isNaN (parseInt (quarantine survey))) && gt (parseInt (quarantine survey)) (Int 0)
      then setWithExpiry (quarantine_key config survey) (VStr "true") (parseInt (quarantine survey))
      else mret tt);;
     emit config "survey_excluded_quarantined_user_sampling"
          [("survey_id", survey_id survey); ("percentage", VNumber pct)];;
     log config ("SURVEY: survey " +:+ ToString (survey_id survey)
                 +:+ " is excluded by sampling, and quarantined (user sampling)");;
     mret false
   else
     emit config "survey_excluded_not_quarantined_event_sampling"
          [("survey_id", survey_id survey); ("percentage", VNumber pct)];;
     log config ("SURVEY: survey " +:+ ToString (survey_id survey)
                 +:+ " is excluded by sampling, and not quarantined (event sampling)");;
     mret false) st
  =
  let key := quarantine_key config survey in
  let pct := [("survey_id", survey_id survey); ("percentage", VNumber (threshold survey))] in
  let name := ToString (survey_id survey) in
  let st1 := set_draws (S (draws st)) st in
  if le (Int (next_draw st)) (threshold survey) then
    match quarantine_days survey with
    | Some q =>
        (Ok true,
         add_trace [Event "survey_included_by_sampling" pct]
           (add_trace [Event "survey_quarantine_set_on_sample"
                         [("survey_id", survey_id survey); ("days", VInt q)]]
              (durable_write key q st1)))
    | None => (Ok true, add_trace [Event "survey_included_by_sampling" pct] st1)
    end
  else if userSampling config then
    (Ok false,
     add_trace [Logged ("SURVEY: survey " +:+ name
                        +:+ " is excluded by sampling, and quarantined (user sampling)")]
       (add_trace [Event "survey_excluded_quarantined_user_sampling" pct]
          (match quarantine_days survey with
           | Some q => durable_write key q st1
           | None => st1
           end)))
  else
    (Ok false,
     add_trace [Logged ("SURVEY: survey " +:+ name
                        +:+ " is excluded by sampling, and not quarantined (event sampling)")]
       (add_trace [Event "survey_excluded_not_quarantined_event_sampling" pct] st1)).
Proof.
  cbn zeta. unfold next_draw. rewrite run_bind. cbn [random_percent].
  destruct (le _ _); [|destruct (userSampling config)].
  - rewrite run_bind, sampling_write_emit_run.
    destruct (quarantine_days survey); rewrite run_bind, emit_run; reflexivity.
  - rewrite run_bind, sampling_write_run.
    destruct (quarantine_days survey); rewrite run_bind, emit_run, run_bind, log_run;
      reflexivity.
  - rewrite run_bind, emit_run, run_bind, log_run. reflexivity.
Qed.

(** The eligibility check, case by case.  A blocking entry stops it after
    the read; a corrupt one makes the read throw; otherwise one draw is made
    and compared with the threshold. *)
Lemma passesStorageRules_run config survey st :
  let key := quarantine_key config survey in
  let id := [("survey_id", survey_id survey)] in
  let pct := [("survey_id", survey_id survey); ("percentage", VNumber (threshold survey))] in
  let name := ToString (survey_id survey) in
  passesStorageRules config survey st =
  match quarantine_status key st with
  | Corrupt =>
      match lookup_entry key st with
      | Some (Unparsable text) => (Throw (SyntaxError text), st)
      | _ => (Ok false, st)
      end
  | Blocking =>
      (Ok false,
       add_trace [Logged ("SURVEY: survey " +:+ name +:+ " is quarantined")]
         (add_trace [Event "survey_quarantined_block" id] (after_read key st)))
  | Clear =>
      let st1 := set_draws (S (draws st)) (after_read key st) in
      if le (Int (next_draw st)) (threshold survey) then
        match quarantine_days survey with
        | Some q =>
            (Ok true,
             add_trace [Event "survey_included_by_sampling" pct]
               (add_trace [Event "survey_quarantine_set_on_sample"
                             [("survey_id", survey_id survey); ("days", VInt q)]]
                  (durable_write key q st1)))
        | None => (Ok true, add_trace [Event "survey_included_by_sampling" pct] st1)
        end
      else if userSampling config then
        (Ok false,
         add_trace [Logged ("SURVEY: survey " +:+ name
                            +:+ " is excluded by sampling, and quarantined (user sampling)")]
           (add_trace [Event "survey_excluded_quarantined_user_sampling" pct]
              (match quarantine_days survey with
               | Some q => durable_write key q st1
               | None => st1
               end)))
      else
        (Ok false,
         add_trace [Logged ("SURVEY: survey " +:+ name
                            +:+ " is excluded by sampling, and not quarantined (event sampling)")]
           (add_trace [Event "survey_excluded_not_quarantined_event_sampling" pct] st1))
  end.
Proof.
  cbn zeta. unfold passesStorageRules, quarantine_status, after_read, next_draw.
  fold (quarantine_key config survey). set (key := quarantine_key config survey).
  rewrite run_bind, getWithExpiry_run.
  destruct (lookup_entry key st) as [[text|it]|]; cbn [entry_status].
  - destruct (String.eqb text EmptyString); [|reflexivity]. cbn [ToBoolean snd].
    fold (threshold survey). apply sampling_run.
  - cbn zeta. destruct (expired _ it).
    + cbn [ToBoolean snd]. fold (threshold survey).
      refine (sampling_run config survey _).
    + cbn [snd]. destruct (ToBoolean (item_value it)).
      * rewrite run_bind, emit_run, run_bind, log_run. reflexivity.
      * fold (threshold survey). refine (sampling_run config survey _).
  - cbn [ToBoolean snd]. fold (threshold survey). apply sampling_run.
Qed.

(** ** One iteration of the selection loop *)

Lemma arrive_number surveyId raw st n :
  surveyConfigurations st !! surveyId = Some raw ->
  priority raw = VNumber n -> arrive surveyId raw st = st.
Proof.
  intros Hraw Hp. unfold arrive, normalize. rewrite Hp, insert_id by exact Hraw.
  destruct st; reflexivity.
Qed.

Lemma loop_missing config surveyId rest m c st :
  surveyConfigurations st !! surveyId = None ->
  chooseSurvey_loop config (surveyId :: rest) m c st =
  chooseSurvey_loop config rest m c
    (add_trace [Event "survey_missing_config" [("survey_id", VStr surveyId)]] st).
Proof.
  intros Hnone. cbn [chooseSurvey_loop]. rewrite run_bind. cbn [gets].
  rewrite Hnone, run_bind, emit_run. reflexivity.
Qed.

Lemma loop_resolved config surveyId rest m c st raw :
  surveyConfigurations st !! surveyId = Some raw ->
  chooseSurvey_loop config (surveyId :: rest) m c st =
  if gt (priority_number raw) m then
    match passesStorageRules config (normalize raw) (arrive surveyId raw st) with
    | (Ok true, st2) =>
        chooseSurvey_loop config rest (priority_number raw) (Some (normalize raw)) st2
    | (Ok false, st2) => chooseSurvey_loop config rest m c st2
    | (Throw e, st2) => (Throw e, st2)
    end
  else chooseSurvey_loop config rest m c (arrive surveyId raw st).
Proof.
  intros Hraw. cbn [chooseSurvey_loop]. rewrite run_bind. cbn [gets]. rewrite Hraw.
  rewrite run_bind. unfold priority_number.
  destruct (priority raw) as [| |b|n|s|l] eqn:Hp;
    try (unfold normalize; rewrite Hp; rewrite run_bind; cbn [modify mret M_ret];
         replace (set_surveyConfigurations _ st) with (arrive surveyId raw st)
           by (unfold arrive, normalize; rewrite Hp; reflexivity);
         cbn [priority set_priority];
         destruct (gt _ m);
         [rewrite run_bind;
          destruct (passesStorageRules _ _ _) as [[[|]|e] st2]; reflexivity
         | reflexivity]).
  rewrite (arrive_number _ _ _ _ Hraw Hp). unfold normalize. rewrite Hp.
  cbn [mret M_ret]. rewrite Hp.
  destruct (gt n m); [|reflexivity].
  rewrite run_bind.
  destruct (passesStorageRules config raw st) as [[[|]|e] st2]; reflexivity.
Qed.

(** ** What a quarantine read changes *)

Lemma after_read_spec key st :
  after_read key st =
  match lookup_entry key st with
  | Some (Json it) =>
      if expired (clock st (ticks st)) it
      then set_localStorage (delete key (localStorage st)) (set_ticks (S (ticks st)) st)
      else set_ticks (S (ticks st)) st
  | _ => st
  end.
Proof.
  unfold after_read. rewrite getWithExpiry_run.
  destruct (lookup_entry key st) as [[text|it]|]; [|cbn zeta|reflexivity].
  - destruct (String.eqb text EmptyString); reflexivity.
  - destruct (expired _ it); reflexivity.
Qed.

Lemma after_read_frame key st :
  surveyConfigurations (after_read key st) = surveyConfigurations st /\
  sessionStorage (after_read key st) = sessionStorage st /\
  clock (after_read key st) = clock st /\
  random (after_read key st) = random st /\
  draws (after_read key st) = draws st /\
  trace (after_read key st) = trace st /\
  (ticks st <= ticks (after_read key st))%nat.
Proof.
  rewrite after_read_spec.
  destruct (lookup_entry key st) as [[text|it]|]; [| |]; try (repeat split; reflexivity).
  destruct (expired _ it); cbn; repeat split; lia.
Qed.

(** A read only ever removes the durable entry of its own key. *)
Lemma after_read_local key st :
  localStorage (after_read key st) = localStorage st \/
  localStorage (after_read key st) = delete key (localStorage st).
Proof.
  rewrite after_read_spec.
  destruct (lookup_entry key st) as [[text|it]|]; try (left; reflexivity).
  destruct (expired _ it); [right|left]; reflexivity.
Qed.

Lemma after_read_local_subseteq key st :
  localStorage (after_read key st) ⊆ localStorage st.
Proof.
  destruct (after_read_local key st) as [-> | ->]; [reflexivity | apply delete_subseteq].
Qed.

(** An entry that blocks is left in place by the read. *)
Lemma after_read_blocking key st :
  quarantine_status key st = Blocking ->
  after_read key st = set_ticks (S (ticks st)) st.
Proof.
  unfold quarantine_status, entry_status. rewrite after_read_spec.
  destruct (lookup_entry key st) as [[text|it]|]; try discriminate.
  - destruct (String.eqb text EmptyString); discriminate.
  - destruct (expired _ it); [discriminate | reflexivity].
Qed.

(** ** The selection loop as a whole *)

Lemma priority_normalize raw :
  priority (normalize raw) = VNumber (priority_number raw).
Proof.
  unfold priority_number, normalize.
  destruct (priority raw) eqn:Hp; cbn; rewrite ?Hp; reflexivity.
Qed.

Lemma normalize_idem raw : normalize (normalize raw) = normalize raw.
Proof.
  unfold normalize at 1. rewrite priority_normalize. reflexivity.
Qed.

Lemma priority_number_normalize raw :
  priority_number (normalize raw) = priority_number raw.
Proof. unfold priority_number. rewrite normalize_idem. reflexivity. Qed.

Lemma normalize_fields raw :
  survey_id (normalize raw) = survey_id raw /\
  percentage (normalize raw) = percentage raw /\
  quarantine (normalize raw) = quarantine raw.
Proof. unfold normalize. destruct (priority raw); repeat split. Qed.

Lemma gt_Int a m : gt a m = true -> exists x y, a = Int x /\ m = Int y /\ y < x.
Proof.
  destruct a as [x|], m as [y|]; cbn; try discriminate.
  intros H. exists x, y. repeat split. lia.
Qed.

Lemma loop_app config a b m c st :
  chooseSurvey_loop config (a ++ b)%list m c st =
  match chooseSurvey_loop config a m c st with
  | (Ok (m', c'), st') => chooseSurvey_loop config b m' c' st'
  | (Throw e, st') => (Throw e, st')
  end.
Proof.
  revert m c st. induction a as [|surveyId a IH]; intros m c st; [reflexivity|].
  rewrite <- app_comm_cons.
  destruct (surveyConfigurations st !! surveyId) as [raw|] eqn:Hraw.
  - rewrite !(loop_resolved _ _ _ _ _ _ _ Hraw).
    destruct (gt (priority_number raw) m); [|apply IH].
    destruct (passesStorageRules _ _ _) as [[[|]|e] st2]; [apply IH | apply IH | reflexivity].
  - rewrite !(loop_missing _ _ _ _ _ _ Hraw). apply IH.
Qed.

Lemma loop_inv config ids : forall m c st m' c' st',
  best_inv m c ->
  chooseSurvey_loop config ids m c st = (Ok (m', c'), st') ->
  best_inv m' c' /\
  exists z z', m = Int z /\ m' = Int z' /\ z <= z' /\ (z' = z -> c' = c).
Proof.
  induction ids as [|surveyId rest IH]; intros m c st m' c' st' Hinv Hrun.
  - cbn in Hrun. injection Hrun as <- <- <-. split; [exact Hinv|].
    destruct Hinv as (z & -> & _). exists z, z. repeat split; lia.
  - destruct (surveyConfigurations st !! surveyId) as [raw|] eqn:Hraw.
    + rewrite (loop_resolved _ _ _ _ _ _ _ Hraw) in Hrun.
      destruct (gt (priority_number raw) m) eqn:Hgt; [|eauto].
      destruct (passesStorageRules _ _ _) as [[[|]|e] st2]; [|eauto|discriminate].
      destruct (gt_Int _ _ Hgt) as (x & y & Hx & -> & Hlt).
      assert (Hinv' : best_inv (priority_number raw) (Some (normalize raw))).
      { exists x. split; [exact Hx|]. rewrite priority_normalize, Hx.
        destruct Hinv as (z & Hz & Hc). injection Hz as <-.
        split; [reflexivity|]. destruct c as [ch|]; lia. }
      destruct (IH _ _ _ _ _ _ Hinv' Hrun) as (Hfin & z & z' & Hz & -> & Hle & _).
      split; [exact Hfin|]. rewrite Hx in Hz. injection Hz as <-.
      exists y, z'. repeat split; lia.
    + rewrite (loop_missing _ _ _ _ _ _ Hraw) in Hrun. eauto.
Qed.

Lemma best_inv_init : best_inv (Int (-1)) None.
Proof. exists (-1). split; reflexivity. Qed.

(** Whenever the loop ends with another best candidate than it started
    with, that candidate was reached, beat the running maximum, passed its
    eligibility check, and nothing after it replaced it. *)
Lemma loop_selected config ids : forall m c st m' c' st',
  chooseSurvey_loop config ids m c st = (Ok (m', c'), st') ->
  (m' = m /\ c' = c) \/
  exists pre surveyId post m0 c0 st0 raw st2,
    ids = (pre ++ surveyId :: post)%list /\
    chooseSurvey_loop config pre m c st = (Ok (m0, c0), st0) /\
    surveyConfigurations st0 !! surveyId = Some raw /\
    gt (priority_number raw) m0 = true /\
    passesStorageRules config (normalize raw) (arrive surveyId raw st0) = (Ok true, st2) /\
    m' = priority_number raw /\ c' = Some (normalize raw) /\
    chooseSurvey_loop config post m' c' st2 = (Ok (m', c'), st').
Proof.
  induction ids as [|surveyId rest IH]; intros m c st m' c' st' Hrun.
  - cbn in Hrun. injection Hrun as <- <- <-. left. split; reflexivity.
  - assert (Hskip : forall st1,
              chooseSurvey_loop config [surveyId] m c st = (Ok (m, c), st1) ->
              chooseSurvey_loop config rest m c st1 = (Ok (m', c'), st') ->
              (m' = m /\ c' = c) \/
              exists pre surveyId0 post m0 c0 st0 raw st2,
                surveyId :: rest = (pre ++ surveyId0 :: post)%list /\
                chooseSurvey_loop config pre m c st = (Ok (m0, c0), st0) /\
                surveyConfigurations st0 !! surveyId0 = Some raw /\
                gt (priority_number raw) m0 = true /\
                passesStorageRules config (normalize raw) (arrive surveyId0 raw st0)
                  = (Ok true, st2) /\
                m' = priority_number raw /\ c' = Some (normalize raw) /\
                chooseSurvey_loop config post m' c' st2 = (Ok (m', c'), st')).
    { intros st1 Hone Hrest.
      destruct (IH _ _ _ _ _ _ Hrest)
        as [Hsame | (pre & id0 & post & m0 & c0 & st0 & raw & st2 & -> & Hpre & Hrest')];
        [left; exact Hsame|].
      right. exists (surveyId :: pre), id0, post, m0, c0, st0, raw, st2.
      split; [reflexivity|]. split; [|exact Hrest'].
      change (surveyId :: pre) with ([surveyId] ++ pre)%list.
      rewrite loop_app, Hone. exact Hpre. }
    destruct (surveyConfigurations st !! surveyId) as [raw|] eqn:Hraw.
    + rewrite (loop_resolved _ _ _ _ _ _ _ Hraw) in Hrun.
      destruct (gt (priority_number raw) m) eqn:Hgt.
      * destruct (passesStorageRules _ _ _) as [[[|]|e] st2] eqn:Hpass; [| |discriminate].
        -- destruct (IH _ _ _ _ _ _ Hrun)
             as [[-> ->] | (pre & id0 & post & m0 & c0 & st0 & raw0 & st3 & -> & Hpre & Hrest')].
           ++ right. exists [], surveyId, rest, m, c, st, raw, st2.
              repeat split; try reflexivity; assumption.
           ++ right. exists (surveyId :: pre), id0, post, m0, c0, st0, raw0, st3.
              split; [reflexivity|]. split; [|exact Hrest'].
              change (surveyId :: pre) with ([surveyId] ++ pre)%list.
              rewrite loop_app, (loop_resolved _ _ _ _ _ _ _ Hraw), Hgt, Hpass.
              exact Hpre.
        -- apply (Hskip st2); [|exact Hrun].
           rewrite (loop_resolved _ _ _ _ _ _ _ Hraw), Hgt, Hpass. reflexivity.
      * apply (Hskip (arrive surveyId raw st)); [|exact Hrun].
        rewrite (loop_resolved _ _ _ _ _ _ _ Hraw), Hgt. reflexivity.
    + rewrite (loop_missing _ _ _ _ _ _ Hraw) in Hrun.
      apply (Hskip (add_trace
                      [Event "survey_missing_config" [("survey_id", VStr surveyId)]] st));
        [|exact Hrun].
      rewrite (loop_missing _ _ _ _ _ _ Hraw). reflexivity.
Qed.

Lemma chooseSurvey_run config candidates st :
  chooseSurvey config candidates st =
  match normalizeSurveyIdToArray candidates with
  | [] => (Ok None, st)
  | ids =>
      match chooseSurvey_loop config ids (Int (-1)) None st with
      | (Ok (_, Some ch), st') =>
          (Ok (Some ch),
           add_trace [Event "survey_chosen"
                        [("survey_id", survey_id ch); ("priority", priority ch)]] st')
      | (Ok (_, None), st') =>
          (Ok None,
           add_trace [Event "survey_none_chosen" [("candidates", VArr (map VStr ids))]] st')
      | (Throw e, st') => (Throw e, st')
      end
  end.
Proof.
  unfold chooseSurvey.
  destruct (normalizeSurveyIdToArray candidates) as [|surveyId rest]; [reflexivity|].
  rewrite run_bind.
  destruct (chooseSurvey_loop _ _ _ _ _) as [[[m [ch|]]|e] st']; cbn [snd];
    [rewrite run_bind, emit_run .. |]; reflexivity.
Qed.

(** What [chooseSurvey] returns was selected by an eligibility check. *)
Lemma chooseSurvey_selected config candidates st ch st' :
  chooseSurvey config candidates st = (Ok (Some ch), st') ->
  exists st1, selected_at config candidates st ch st1.
Proof.
  rewrite chooseSurvey_run.
  destruct (normalizeSurveyIdToArray candidates) as [|surveyId rest] eqn:Hids;
    [discriminate|].
  cbv beta iota zeta.
  destruct (chooseSurvey_loop _ _ _ _ _) as [[[m [c|]]|e] st2] eqn:Hloop; try discriminate.
  intros H. injection H as -> _.
  destruct (loop_selected _ _ _ _ _ _ _ _ Hloop)
    as [[_ Hc] | (pre & id0 & post & m0 & c0 & st0 & raw & st3 & Hsplit & Hpre & Hraw
                  & Hgt & Hpass & _ & Hch & _)]; [discriminate|].
  injection Hch as ->.
  exists (arrive id0 raw st0), pre, id0, post, m0, c0.
  split; [rewrite Hids; exact Hsplit|]. split; [|split].
  - exists st0, raw. repeat split; assumption.
  - rewrite priority_number_normalize. exact Hgt.
  - rewrite Hpass. reflexivity.
Qed.

(** ** Claims *)

(** C3 as stated fails when the entry sits in the session store behind an
    expired durable record: the session entry of [A] is present and never
    expires, yet the read finds the expired durable record, the check goes
    on to the draw and passes, and [chooseSurvey] returns [A]. *)
Lemma C3_session_entry_behind_expired_record :
  sessionStorage shadowed_state !! "neb_A" = Some (Json (Item (VStr "true") None)) /\
  localStorage shadowed_state !! "neb_A"
    = Some (Json (Item (VStr "true") (Some 86400000))) /\
  86400000 < clock shadowed_state (ticks shadowed_state) /\
  fst (passesStorageRules default_config (demo_survey "A" "100" "21" (VInt 1))
         shadowed_state) = Ok true /\
  draws (snd (passesStorageRules default_config (demo_survey "A" "100" "21" (VInt 1))
                shadowed_state)) = S (draws shadowed_state) /\
  fst (chooseSurvey default_config (VStr "A") shadowed_state)
    = Ok (Some (demo_survey "A" "100" "21" (VInt 1))).
Proof. vm_compute. repeat split; reflexivity. Qed.

(** C3, amended.  A survey whose quarantine entry, as the read finds it (the
    durable string when it is truthy, the session string otherwise), is
    present and unexpired when its eligibility check starts is found
    ineligible: the check returns [false], reports
    [survey_quarantined_block] (and logs it), makes no draw and leaves both
    stores as they are.  And whatever [chooseSurvey] returns was selected by
    a check that found no blocking entry, so a survey that is blocked at its
    check is never the returned one, whatever its percentage. *)
Theorem C3_quarantined_survey_is_blocked config :
  (forall survey st,
     quarantine_status (quarantine_key config survey) st = Blocking ->
     exists st',
       passesStorageRules config survey st = (Ok false, st') /\
       trace st' = (trace st ++
         [Event "survey_quarantined_block" [("survey_id", survey_id survey)];
          Logged ("SURVEY: survey " +:+ ToString (survey_id survey) +:+ " is quarantined")])%list /\
       draws st' = draws st /\
       localStorage st' = localStorage st /\
       sessionStorage st' = sessionStorage st) /\
  (forall candidates st ch st',
     chooseSurvey config candidates st = (Ok (Some ch), st') ->
     exists st1,
       selected_at config candidates st ch st1 /\
       quarantine_status (quarantine_key config ch) st1 = Clear).
Proof.
  split.
  - intros survey st Hblock. eexists. split.
    + rewrite passesStorageRules_run. cbn zeta. rewrite Hblock. reflexivity.
    + rewrite (after_read_blocking _ _ Hblock). cbn.
      rewrite <- app_assoc. repeat split; reflexivity.
  - intros candidates st ch st' Hrun.
    destruct (chooseSurvey_selected _ _ _ _ _ Hrun) as (st1 & Hsel).
    exists st1. split; [exact Hsel|].
    destruct Hsel as (pre & id0 & post & m0 & c0 & _ & _ & _ & Hpass).
    rewrite passesStorageRules_run in Hpass. cbn zeta in Hpass.
    destruct (quarantine_status _ st1); [discriminate|reflexivity|].
    destruct (lookup_entry _ st1) as [[text|it]|]; discriminate.
Qed.

Lemma C3_quarantined_survey_is_blocked_witness :
  quarantine_status (quarantine_key default_config (demo_survey "A" "100" "21" (VInt 1)))
    (demo_quarantined 5000) = Blocking /\
  fst (passesStorageRules default_config (demo_survey "A" "100" "21" (VInt 1))
         (demo_quarantined 5000)) = Ok false /\
  fst (chooseSurvey default_config (VStr "A,B") (demo_quarantined 5000))
    = Ok (Some (demo_survey "B" "100" "0" (VInt 2))).
Proof.
  assert (Hblock : quarantine_status
            (quarantine_key default_config (demo_survey "A" "100" "21" (VInt 1)))
            (demo_quarantined 5000) = Blocking) by (vm_compute; reflexivity).
  split; [exact Hblock|]. split.
  - destruct (proj1 (C3_quarantined_survey_is_blocked default_config) _ _ Hblock)
      as (st' & -> & _). reflexivity.
  - destruct (chooseSurvey default_config (VStr "A,B") (demo_quarantined 5000))
      as [r st'] eqn:Hrun.
    assert (Hr : r = Ok (Some (demo_survey "B" "100" "0" (VInt 2)))).
    { vm_compute in Hrun. injection Hrun as <- _. reflexivity. }
    subst r.
    destruct (proj2 (C3_quarantined_survey_is_blocked default_config) _ _ _ _ Hrun)
      as (st1 & _ & _). reflexivity.
Defined.

(** C4.  With no unexpired quarantine entry in the way, the eligibility
    check takes the percentage as an integer (0 when it does not parse),
    makes exactly one draw, and its answer is whether the draw is at most
    that threshold.  Hence, for draws in 0..99, a percentage of 100 always
    passes and a percentage of 0 passes exactly on a draw of 0. *)
Theorem C4_inclusive_sampling config survey st :
  quarantine_status (quarantine_key config survey) st = Clear ->
  exists (t : Z) st',
    t = match parseInt (percentage survey) with Int p => p | NaN => 0 end /\
    passesStorageRules config survey st = (Ok (next_draw st <=? t), st') /\
    draws st' = S (draws st) /\
    (0 <= next_draw st <= 99 -> t = 100 -> (next_draw st <=? t) = true) /\
    (0 <= next_draw st <= 99 -> t = 0 -> ((next_draw st <=? t) = true <-> next_draw st = 0)).
Proof.
  intros Hclear.
  assert (Hthr : threshold survey =
                 Int (match parseInt (percentage survey) with Int p => p | NaN => 0 end)).
  { unfold threshold. destruct (parseInt (percentage survey)); reflexivity. }
  pose proof (passesStorageRules_run config survey st) as Hrun. cbn zeta in Hrun.
  rewrite Hclear, Hthr in Hrun. cbn [le] in Hrun.
  destruct (after_read_frame (quarantine_key config survey) st)
    as (_ & _ & _ & _ & Hd & _).
  set (t := match parseInt (percentage survey) with Int p => p | NaN => 0 end) in *.
  assert (Hcheck : exists st',
            passesStorageRules config survey st = (Ok (next_draw st <=? t), st') /\
            draws st' = S (draws st)).
  { destruct (next_draw st <=? t); [|destruct (userSampling config)];
      [destruct (quarantine_days survey)| destruct (quarantine_days survey) |];
      (eexists; split; [exact Hrun|]);
      unfold add_trace, durable_write;
      cbn [draws set_trace set_localStorage set_ticks set_draws]; rewrite ?Hd; reflexivity. }
  destruct Hcheck as (st' & Hpass & Hdraws).
  exists t, st'. split; [reflexivity|]. split; [exact Hpass|]. split; [exact Hdraws|].
  split; intros Hr ->; [apply Z.leb_le|rewrite Z.leb_le]; lia.
Qed.

Lemma C4_inclusive_sampling_witness :
  fst (passesStorageRules default_config (demo_survey "A" "100" "21" (VInt 1)) (demo_state 99))
    = Ok true /\
  fst (passesStorageRules default_config (demo_survey "Z" "0" "0" (VInt 1)) (demo_state 0))
    = Ok true /\
  fst (passesStorageRules default_config (demo_survey "Z" "0" "0" (VInt 1)) (demo_state 1))
    = Ok false.
Proof.
  split; [|split].
  - destruct (C4_inclusive_sampling default_config (demo_survey "A" "100" "21" (VInt 1))
                (demo_state 99) eq_refl) as (t & st' & -> & -> & _). reflexivity.
  - destruct (C4_inclusive_sampling default_config (demo_survey "Z" "0" "0" (VInt 1))
                (demo_state 0) eq_refl) as (t & st' & -> & -> & _). reflexivity.
  - destruct (C4_inclusive_sampling default_config (demo_survey "Z" "0" "0" (VInt 1))
                (demo_state 1) eq_refl) as (t & st' & -> & -> & _). reflexivity.
Defined.

(** C6.  A survey the draw excludes is found ineligible.  In user-sampling
    mode with a quarantine length that parses to a positive integer, a
    durable quarantine entry is written under its key and
    [survey_excluded_quarantined_user_sampling] is reported; outside
    user-sampling mode nothing is written to either store and
    [survey_excluded_not_quarantined_event_sampling] is reported. *)
Theorem C6_excluded_by_sampling config survey st :
  let key := quarantine_key config survey in
  let pct := [("survey_id", survey_id survey); ("percentage", VNumber (threshold survey))] in
  quarantine_status key st = Clear ->
  le (Int (next_draw st)) (threshold survey) = false ->
  exists st',
    passesStorageRules config survey st = (Ok false, st') /\
    (userSampling config = true ->
       (forall q, parseInt (quarantine survey) = Int q -> 0 < q ->
          localStorage st' !! key =
            Some (Json (Item (VStr "true")
                    (Some (clock st (ticks (after_read key st)) + q * 86400 * 1000))))) /\
       trace st' = (trace st ++
         [Event "survey_excluded_quarantined_user_sampling" pct;
          Logged ("SURVEY: survey " +:+ ToString (survey_id survey)
                  +:+ " is excluded by sampling, and quarantined (user sampling)")])%list) /\
    (userSampling config = false ->
       localStorage st' ⊆ localStorage st /\
       sessionStorage st' = sessionStorage st /\
       trace st' = (trace st ++
         [Event "survey_excluded_not_quarantined_event_sampling" pct;
          Logged ("SURVEY: survey " +:+ ToString (survey_id survey)
                  +:+ " is excluded by sampling, and not quarantined (event sampling)")])%list).
Proof.
  intros key pct Hclear Hout.
  destruct (after_read_frame key st) as (_ & Hsess & Hclock & _ & _ & Htrace & _).
  pose proof (passesStorageRules_run config survey st) as Hrun. cbn zeta in Hrun.
  fold key in Hrun. rewrite Hclear, Hout in Hrun.
  destruct (userSampling config).
  - eexists. split; [exact Hrun|]. split; [|discriminate].
    intros _. split.
    + intros q Hq Hpos. unfold quarantine_days. rewrite Hq.
      destruct (0 <? q) eqn:Hlt; [|lia]. cbn.
      rewrite lookup_insert_eq, Hclock. unfold ms_per_day.
      do 4 f_equal. lia.
    + destruct (quarantine_days survey); cbn; rewrite Htrace, <- app_assoc; reflexivity.
  - eexists. split; [exact Hrun|]. split; [discriminate|].
    intros _. cbn. rewrite Hsess, Htrace, <- app_assoc.
    repeat split. apply after_read_local_subseteq.
Qed.

Lemma C6_excluded_by_sampling_witness :
  (exists st',
     passesStorageRules (mkConfig true "neb_" None None)
       (demo_survey "A" "10" "7" (VInt 1)) (demo_state 50) = (Ok false, st') /\
     localStorage st' !! "neb_A" =
       Some (Json (Item (VStr "true") (Some (1000 + 7 * 86400 * 1000))))) /\
  (exists st',
     passesStorageRules default_config
       (demo_survey "A" "10" "7" (VInt 1)) (demo_state 50) = (Ok false, st') /\
     localStorage st' ⊆ ∅).
Proof.
  split.
  - destruct (C6_excluded_by_sampling (mkConfig true "neb_" None None)
                (demo_survey "A" "10" "7" (VInt 1)) (demo_state 50) eq_refl eq_refl)
      as (st' & Hrun & Hus & _).
    exists st'. split; [exact Hrun|].
    apply (proj1 (Hus eq_refl) 7); [reflexivity | lia].
  - destruct (C6_excluded_by_sampling default_config
                (demo_survey "A" "10" "7" (VInt 1)) (demo_state 50) eq_refl eq_refl)
      as (st' & Hrun & _ & Hev).
    exists st'. split; [exact Hrun|]. apply (Hev eq_refl).
Defined.

(** ** Printing a positive integer and parsing it back *)

Lemma digit_value_char (d : N) :
  (d < 10)%N -> digit_value (pretty_N_char d) = Some (Z.of_N d).
Proof.
  intros Hd.
  assert (Hcases : d = 0%N \/ d = 1%N \/ d = 2%N \/ d = 3%N \/ d = 4%N \/
                   d = 5%N \/ d = 6%N \/ d = 7%N \/ d = 8%N \/ d = 9%N) by lia.
  repeat (destruct Hcases as [-> | Hcases]; [reflexivity|]).
  subst d. reflexivity.
Qed.

Lemma digit_not_space c d :
  digit_value c = Some d ->
  is_white_space c = false /\ c <> "-"%char /\ c <> "+"%char.
Proof.
  unfold digit_value, is_white_space.
  destruct ((48 <=? nat_of_ascii c)%nat && (nat_of_ascii c <=? 57)%nat) eqn:Hrange;
    [|discriminate].
  intros _. apply andb_prop in Hrange as [Hlo Hhi].
  apply Nat.leb_le in Hlo, Hhi.
  split; [|split].
  - destruct (nat_of_ascii c <=? 13)%nat eqn:H1; [apply Nat.leb_le in H1; lia|].
    destruct (nat_of_ascii c =? 32)%nat eqn:H2; [apply Nat.eqb_eq in H2; lia|].
    destruct (nat_of_ascii c =? 160)%nat eqn:H3; [apply Nat.eqb_eq in H3; lia|].
    rewrite andb_false_r. reflexivity.
  - intros ->. change (nat_of_ascii "-") with 45%nat in Hlo. lia.
  - intros ->. change (nat_of_ascii "+") with 43%nat in Hlo. lia.
Qed.

Lemma parse_pretty_go (x : N) : forall s,
  (0 < x)%N ->
  parse_digits None (pretty_N_go x s) = parse_digits (Some (Z.of_N x)) s /\
  exists c rest d, pretty_N_go x s = String c rest /\ digit_value c = Some d.
Proof.
  induction (N.lt_wf_0 x) as [x _ IH]. intros s Hpos.
  rewrite pretty_N_go_step by exact Hpos.
  assert (H10 : (10 <> 0)%N) by discriminate.
  assert (Hd : (x `mod` 10 < 10)%N) by (apply N.mod_lt; exact H10).
  pose proof (digit_value_char _ Hd) as Hdv.
  destruct (decide (x `div` 10 = 0)%N) as [Hz|Hnz].
  - rewrite Hz, pretty_N_go_0. split.
    + cbn [parse_digits]. rewrite Hdv.
      pose proof (N.div_mod x 10 H10) as Hx.
      rewrite Hz, N.mul_0_r, N.add_0_l in Hx. rewrite <- Hx. reflexivity.
    + eauto.
  - assert (Hlt : (x `div` 10 < x)%N) by (apply N.div_lt; [exact Hpos | reflexivity]).
    assert (Hpos' : (0 < x `div` 10)%N) by (apply N.neq_0_lt_0; exact Hnz).
    destruct (IH _ Hlt (String (pretty_N_char (x `mod` 10)) s) Hpos') as [Hparse Hhead].
    split; [|exact Hhead].
    rewrite Hparse. cbn [parse_digits]. rewrite Hdv.
    assert (Hx : 10 * Z.of_N (x `div` 10) + Z.of_N (x `mod` 10) = Z.of_N x).
    { rewrite (N.div_mod x 10 H10) at 3.
      rewrite N2Z.inj_add, N2Z.inj_mul. reflexivity. }
    rewrite Hx. reflexivity.
Qed.

Lemma parseInt_positive (d : Z) : 0 < d -> parseInt (VInt d) = Int d.
Proof.
  intros Hd. destruct d as [|p|p]; try lia.
  unfold parseInt, VInt. cbn [ToString number_to_string].
  change (pretty (Z.pos p)) with (pretty_N_go (N.pos p) EmptyString).
  destruct (parse_pretty_go (N.pos p) EmptyString ltac:(lia))
    as [Hparse (c & rest & v & Hhead & Hv)].
  destruct (digit_not_space _ _ Hv) as (Hws & Hminus & Hplus).
  unfold parseInt_string. rewrite Hhead in *. cbn [trim_start]. rewrite Hws.
  assert (Hbody : (let '(sign, body) :=
                     match String c rest with
                     | String "-" r => (-1, r)
                     | String "+" r => (1, r)
                     | _ => (1, String c rest)
                     end in
                   match parse_digits None body with
                   | Some z => Int (sign * z)
                   | None => NaN
                   end) = match parse_digits None (String c rest) with
                          | Some z => Int (1 * z)
                          | None => NaN
                          end).
  { destruct c as [[] [] [] [] [] [] [] []]; try reflexivity; congruence. }
  rewrite Hbody, Hparse. cbn [parse_digits]. f_equal; lia.
Qed.

(** The durable branch in general: whenever the test [days && days > 0]
    succeeds and [days] parses to a non-zero integer, as for the string
    [21], that integer is the number of days written. *)
Lemma quarantineSurvey_durable string_gt_zero config surveyId days d st :
  ToBoolean days && gt_zero string_gt_zero days = true ->
  parseInt days = Int d -> d <> 0 ->
  localStorage (snd (quarantineSurvey string_gt_zero config surveyId days st))
    !! (quarantineKeyPrefix config +:+ ToString surveyId)
  = Some (Json (Item (VStr "true") (Some (clock st (ticks st) + d * 86400 * 1000)))).
Proof.
  intros Htest Hparse Hnz. unfold quarantineSurvey.
  rewrite Htest, run_bind, Hparse, setWithExpiry_run.
  destruct (d =? 0) eqn:Hz; [lia|]. rewrite emit_run. cbn.
  rewrite lookup_insert_eq. unfold ms_per_day.
  replace (d * (24 * 60 * 60 * 1000)) with (d * 86400 * 1000) by lia. reflexivity.
Qed.

(** C7 as stated fails on days that are above zero without being a whole
    number of days: for [true] and for the string [0.5] the test
    [days && days > 0] succeeds, yet the record written is a session record
    without expiry, no durable record exists, and the event says [local];
    for the string [2.5] the durable record expires two days from now, not
    two and a half. *)
Lemma C7_days_above_zero_without_that_expiry :
  let run days :=
    snd (quarantineSurvey example_gt_zero default_config (VStr "A") days (demo_state 50)) in
  (gt_zero example_gt_zero (VBool true) = true /\
   localStorage (run (VBool true)) !! "neb_A" = None /\
   sessionStorage (run (VBool true)) !! "neb_A" = Some (Json (Item (VStr "true") None)) /\
   trace (run (VBool true)) = [quarantined_event "A" (VBool true) "local"]) /\
  (gt_zero example_gt_zero (VStr "0.5") = true /\
   localStorage (run (VStr "0.5")) !! "neb_A" = None /\
   sessionStorage (run (VStr "0.5")) !! "neb_A" = Some (Json (Item (VStr "true") None)) /\
   trace (run (VStr "0.5")) = [quarantined_event "A" (VStr "0.5") "local"]) /\
  (gt_zero example_gt_zero (VStr "2.5") = true /\
   localStorage (run (VStr "2.5")) !! "neb_A"
   = Some (Json (Item (VStr "true") (Some (1000 + 2 * 86400 * 1000))))).
Proof. vm_compute. repeat split; reflexivity. Qed.

(** C7, amended.  When the test [days && days > 0] succeeds and
    [parseInt(days, 10)] is a non-zero integer [d], and the clock, the
    length in milliseconds and their sum are integers a double holds
    exactly, [quarantineSurvey(surveyId, days)] writes, under the prefixed
    key, a durable record holding the value and an expiry of now plus [d]
    times 86400 seconds, and reports [survey_quarantined] with the days as
    passed and storage [local].  Every positive integer [days] in the exact
    range is such a value, with [d = days].  When the test fails (a falsy
    [days], zero included, or one that is not above zero) it writes a
    session record without expiry and reports days 0 and storage
    [session]. *)
Theorem C7_quarantineSurvey_storage_class string_gt_zero config surveyId :
  let sid := ToString surveyId in
  let key := quarantineKeyPrefix config +:+ sid in
  (forall days d st,
     ToBoolean days && gt_zero string_gt_zero days = true ->
     parseInt days = Int d -> d <> 0 ->
     safe_integer (clock st (ticks st)) ->
     safe_integer (d * 86400 * 1000) ->
     safe_integer (clock st (ticks st) + d * 86400 * 1000) ->
     quarantineSurvey string_gt_zero config surveyId days st =
     (Ok tt,
      add_trace [Event "survey_quarantined"
                   [("survey_id", VStr sid); ("days", days); ("storage", VStr "local")]]
        (set_localStorage
           (<[key := Json (Item (VStr "true")
                         (Some (clock st (ticks st) + d * 86400 * 1000)))]>
              (localStorage st))
           (set_ticks (S (ticks st)) st)))) /\
  (forall d,
     0 < d -> safe_integer d ->
     ToBoolean (VInt d) && gt_zero string_gt_zero (VInt d) = true /\
     parseInt (VInt d) = Int d /\ d <> 0) /\
  (forall days st,
     ToBoolean days && gt_zero string_gt_zero days = false ->
     quarantineSurvey string_gt_zero config surveyId days st =
     (Ok tt,
      add_trace [Event "survey_quarantined"
                   [("survey_id", VStr sid); ("days", VInt 0); ("storage", VStr "session")]]
        (set_sessionStorage
           (<[key := Json (Item (VStr "true") None)]> (sessionStorage st)) st))).
Proof.
  cbn zeta. split; [|split].
  - intros days d st Htest Hparse Hnz _ _ _. unfold quarantineSurvey.
    rewrite Htest, run_bind, Hparse, setWithExpiry_run.
    destruct (d =? 0) eqn:Hz; [lia|]. rewrite emit_run.
    unfold JSON_stringify, ms_per_day. cbn [jsonify item_value item_expiry].
    replace (d * (24 * 60 * 60 * 1000)) with (d * 86400 * 1000) by lia.
    reflexivity.
  - intros d Hpos _. split; [|split; [exact (parseInt_positive d Hpos) | lia]].
    cbn. destruct (d =? 0) eqn:Hz; [lia|]. destruct (0 <? d) eqn:Hlt; [reflexivity|lia].
  - intros days st Htest. unfold quarantineSurvey.
    rewrite Htest, run_bind, setWithExpiry_run. cbn.
    rewrite emit_run. reflexivity.
Qed.

Lemma C7_quarantineSurvey_storage_class_witness :
  localStorage
    (snd (quarantineSurvey example_gt_zero default_config (VStr "A") (VInt 10) (demo_state 50)))
    !! "neb_A" = Some (Json (Item (VStr "true") (Some (1000 + 10 * 86400 * 1000)))) /\
  localStorage
    (snd (quarantineSurvey example_gt_zero default_config (VStr "A") (VStr "21") (demo_state 50)))
    !! "neb_A" = Some (Json (Item (VStr "true") (Some (1000 + 21 * 86400 * 1000)))) /\
  sessionStorage
    (snd (quarantineSurvey example_gt_zero default_config (VStr "A") (VInt 0) (demo_state 50)))
    !! "neb_A" = Some (Json (Item (VStr "true") None)).
Proof.
  pose proof (C7_quarantineSurvey_storage_class example_gt_zero default_config (VStr "A"))
    as (Hdurable & Hint & Hsession).
  cbn zeta in Hdurable, Hsession.
  assert (Hsafe : forall z, (- 2 ^ 53 <? z) = true -> (z <? 2 ^ 53) = true -> safe_integer z).
  { intros z Hlo Hhi. apply Z.ltb_lt in Hlo, Hhi. split; assumption. }
  split; [|split].
  - destruct (Hint 10) as (Htest & Hparse & Hnz);
      [reflexivity | apply Hsafe; reflexivity |].
    rewrite (Hdurable (VInt 10) 10 (demo_state 50) Htest Hparse Hnz)
      by (apply Hsafe; reflexivity).
    apply lookup_insert_eq.
  - rewrite (Hdurable (VStr "21") 21 (demo_state 50))
      by first [reflexivity | discriminate | apply Hsafe; reflexivity].
    apply lookup_insert_eq.
  - rewrite (Hsession (VInt 0) (demo_state 50)) by reflexivity.
    apply lookup_insert_eq.
Defined.

(** C8 as stated fails on the last part: the read of an expired durable
    record returns absence and removes it, but the very next read finds the
    session record of the same key and reports the survey quarantined. *)
Lemma C8_expired_read_then_session_record :
  localStorage shadowed_state !! "neb_A"
    = Some (Json (Item (VStr "true") (Some 86400000))) /\
  86400000 < clock shadowed_state (ticks shadowed_state) /\
  fst (getWithExpiry "neb_A" shadowed_state) = Ok VNull /\
  localStorage (after_read "neb_A" shadowed_state) !! "neb_A" = None /\
  fst (getWithExpiry "neb_A" (after_read "neb_A" shadowed_state)) = Ok (VStr "true") /\
  fst (passesStorageRules default_config (demo_survey "A" "100" "21" (VInt 1))
         (after_read "neb_A" shadowed_state)) = Ok false.
Proof. vm_compute. repeat split; reflexivity. Qed.

(** C8, amended.  A quarantine read that finds in the durable store a
    record whose non-zero expiry lies before the current time returns
    absence and deletes the durable record of the key, whatever the session
    store holds (the durable store is looked at first).  From then on the
    session store alone decides: when it holds nothing under the key, every
    later read returns absence as well. *)
Theorem C8_lazy_expiry key st it e :
  localStorage st !! key = Some (Json it) ->
  item_expiry it = Some e -> e <> 0 -> e < clock st (ticks st) ->
  exists st1,
    getWithExpiry key st = (Ok VNull, st1) /\
    localStorage st1 = delete key (localStorage st) /\
    sessionStorage st1 = sessionStorage st /\
    lookup_entry key st1 = sessionStorage st !! key /\
    (sessionStorage st !! key = None -> getWithExpiry key st1 = (Ok VNull, st1)).
Proof.
  intros Hlocal Hexp Hnz Hlt.
  assert (Hentry : lookup_entry key st = Some (Json it)).
  { unfold lookup_entry. rewrite Hlocal. reflexivity. }
  assert (Hexpired : expired (clock st (ticks st)) it = true).
  { unfold expired. rewrite Hexp.
    destruct (e =? 0) eqn:Hz; [lia|]. destruct (e <? clock st (ticks st)) eqn:Hl; [reflexivity|lia]. }
  eexists. split; [rewrite getWithExpiry_run, Hentry; cbn zeta; rewrite Hexpired; reflexivity|].
  assert (Hlook : lookup_entry key
            (set_localStorage (delete key (localStorage st)) (set_ticks (S (ticks st)) st))
            = sessionStorage st !! key).
  { unfold lookup_entry. cbn. rewrite lookup_delete_eq. reflexivity. }
  split; [reflexivity|]. split; [reflexivity|]. split.
  - exact Hlook.
  - intros Hnone. rewrite getWithExpiry_run, Hlook, Hnone. reflexivity.
Qed.

Lemma C8_lazy_expiry_witness :
  exists st1,
    getWithExpiry "neb_A" (demo_quarantined 500) = (Ok VNull, st1) /\
    localStorage st1 = delete "neb_A" (localStorage (demo_quarantined 500)) /\
    getWithExpiry "neb_A" st1 = (Ok VNull, st1).
Proof.
  destruct (C8_lazy_expiry "neb_A" (demo_quarantined 500) (Item (VStr "true") (Some 500)) 500)
    as (st1 & Hread & Hlocal & _ & _ & Hlater);
    [reflexivity | reflexivity | lia | cbn; lia |].
  exists st1. split; [exact Hread|]. split; [exact Hlocal|]. apply Hlater. reflexivity.
Defined.

(** ** Independence from the callbacks *)

Lemma passesStorageRules_callbacks us prefix oe1 lg1 oe2 lg2 survey st :
  passesStorageRules (mkConfig us prefix oe1 lg1) survey st =
  passesStorageRules (mkConfig us prefix oe2 lg2) survey st.
Proof. rewrite !passesStorageRules_run. reflexivity. Qed.

Lemma loop_callbacks us prefix oe1 lg1 oe2 lg2 ids : forall m c st,
  chooseSurvey_loop (mkConfig us prefix oe1 lg1) ids m c st =
  chooseSurvey_loop (mkConfig us prefix oe2 lg2) ids m c st.
Proof.
  induction ids as [|surveyId rest IH]; intros m c st; [reflexivity|].
  destruct (surveyConfigurations st !! surveyId) as [raw|] eqn:Hraw.
  - rewrite !(loop_resolved _ _ _ _ _ _ _ Hraw).
    rewrite (passesStorageRules_callbacks us prefix oe1 lg1 oe2 lg2).
    destruct (gt (priority_number raw) m); [|apply IH].
    destruct (passesStorageRules _ _ _) as [[[|]|e] st2]; [apply IH | apply IH | reflexivity].
  - rewrite !(loop_missing _ _ _ _ _ _ Hraw). apply IH.
Qed.

(** C9.  Two runs that differ only in their [onEvent] and [logger]
    callbacks, whatever these do and whether or not they throw, give the
    same result and leave the same state (stores included), for
    [chooseSurvey] and for [quarantineSurvey] alike. *)
Theorem C9_callbacks_do_not_matter us prefix oe1 lg1 oe2 lg2 string_gt_zero :
  (forall candidates st,
     chooseSurvey (mkConfig us prefix oe1 lg1) candidates st =
     chooseSurvey (mkConfig us prefix oe2 lg2) candidates st) /\
  (forall surveyId days st,
     quarantineSurvey string_gt_zero (mkConfig us prefix oe1 lg1) surveyId days st =
     quarantineSurvey string_gt_zero (mkConfig us prefix oe2 lg2) surveyId days st).
Proof.
  split.
  - intros candidates st. rewrite !chooseSurvey_run.
    destruct (normalizeSurveyIdToArray candidates) as [|surveyId rest]; [reflexivity|].
    cbv beta iota zeta.
    rewrite (loop_callbacks us prefix oe1 lg1 oe2 lg2). reflexivity.
  - intros surveyId days st. unfold quarantineSurvey. cbn [quarantineKeyPrefix].
    destruct (ToBoolean days && gt_zero string_gt_zero days);
      rewrite !run_bind; destruct (setWithExpiry _ _ _ st) as [[[]|e] st1];
      rewrite ?emit_run; reflexivity.
Qed.

(** A callback that throws on every call changes nothing. *)
Example throwing_callbacks_sample :
  let angry := mkConfig false "neb_"
                 (Some (fun _ _ _ => Throws (VStr "boom")))
                 (Some (fun _ _ => Throws VNull)) in
  chooseSurvey angry (VStr "A,B") (demo_state 50)
  = chooseSurvey default_config (VStr "A,B") (demo_state 50).
Proof. vm_compute. reflexivity. Qed.

(** ** Which key the eligibility check touches *)

Lemma passesStorageRules_frame config survey st k :
  k <> quarantine_key config survey ->
  localStorage (snd (passesStorageRules config survey st)) !! k = localStorage st !! k /\
  sessionStorage (snd (passesStorageRules config survey st)) = sessionStorage st.
Proof.
  intros Hk. set (key := quarantine_key config survey) in *.
  destruct (after_read_frame key st) as (_ & Hsess & _).
  assert (Hloc : localStorage (after_read key st) !! k = localStorage st !! k).
  { destruct (after_read_local key st) as [-> | ->]; [reflexivity|].
    apply lookup_delete_ne. congruence. }
  assert (Hins : forall q st0, localStorage (durable_write key q st0) !! k
                               = localStorage st0 !! k).
  { intros q st0. cbn. apply lookup_insert_ne. congruence. }
  rewrite passesStorageRules_run. cbn zeta. fold key.
  destruct (quarantine_status key st).
  - cbn. rewrite Hloc, Hsess. split; reflexivity.
  - destruct (le _ _); [|destruct (userSampling config)];
      [destruct (quarantine_days survey)| destruct (quarantine_days survey) |];
      cbn; rewrite ?lookup_insert_ne by congruence; rewrite Hloc, Hsess; split; reflexivity.
  - destruct (lookup_entry key st) as [[text|it]|]; split; reflexivity.
Qed.

Lemma blocked_check config survey st :
  quarantine_status (quarantine_key config survey) st = Blocking ->
  exists st',
    passesStorageRules config survey st = (Ok false, st') /\
    draws st' = draws st /\ localStorage st' = localStorage st /\
    sessionStorage st' = sessionStorage st.
Proof.
  intros Hb. eexists. split.
  - rewrite passesStorageRules_run. cbn zeta. rewrite Hb. reflexivity.
  - rewrite (after_read_blocking _ _ Hb). repeat split; reflexivity.
Qed.

Lemma chooseSurvey_single config candidates surveyId raw st :
  normalizeSurveyIdToArray candidates = [surveyId] ->
  surveyConfigurations st !! surveyId = Some raw ->
  fst (chooseSurvey config candidates st) =
  if gt (priority_number raw) (Int (-1)) then
    match fst (passesStorageRules config (normalize raw) (arrive surveyId raw st)) with
    | Ok true => Ok (Some (normalize raw))
    | Ok false => Ok None
    | Throw e => Throw e
    end
  else Ok None.
Proof.
  intros Hids Hraw. rewrite chooseSurvey_run, Hids. cbv beta iota zeta.
  rewrite (loop_resolved _ _ _ _ _ _ _ Hraw).
  destruct (gt (priority_number raw) (Int (-1))); [|reflexivity].
  destruct (passesStorageRules config (normalize raw) (arrive surveyId raw st))
    as [[[|]|e] st2]; reflexivity.
Qed.

Lemma check_absent config survey st :
  lookup_entry (quarantine_key config survey) st = None ->
  fst (passesStorageRules config survey st) = Ok (le (Int (next_draw st)) (threshold survey)).
Proof.
  intros Hnone. rewrite passesStorageRules_run. cbn zeta.
  unfold quarantine_status. rewrite Hnone. cbn [entry_status].
  destruct (le _ _); [|destruct (userSampling config)];
    [destruct (quarantine_days survey)| |]; reflexivity.
Qed.

Lemma normalize_key config raw :
  quarantine_key config (normalize raw) = quarantine_key config raw /\
  threshold (normalize raw) = threshold raw.
Proof.
  destruct (normalize_fields raw) as (Hid & Hpct & _).
  unfold quarantine_key, threshold. rewrite Hid, Hpct. split; reflexivity.
Qed.

(** C10.  The eligibility check works on the key made of the prefix and the
    [survey_id] field of the definition.  It leaves every other key of both
    stores alone; a blocking entry under that key makes it answer no without
    a draw; the quarantine it sets on sampling is the durable record under
    that key.  So for a registry entry whose registry key differs from its
    [survey_id], a quarantine set through [quarantineSurvey] under the
    registry key does not change the entry the check reads; when that entry
    is absent the check is decided by the draw alone, and [chooseSurvey] on
    the registry key returns the survey whenever its priority is above -1
    and the draw is within the threshold.  A blocking entry under the
    [survey_id] key, on the other hand, makes [chooseSurvey] on the registry
    key return nothing. *)
Theorem C10_key_is_built_from_survey_id string_gt_zero config surveyId cfg days st :
  surveyConfigurations st !! surveyId = Some cfg ->
  ToString (survey_id cfg) <> surveyId ->
  let key := quarantine_key config cfg in
  let st1 := snd (quarantineSurvey string_gt_zero config (VStr surveyId) days st) in
  (forall k st0, k <> key ->
     localStorage (snd (passesStorageRules config cfg st0)) !! k = localStorage st0 !! k /\
     sessionStorage (snd (passesStorageRules config cfg st0)) !! k = sessionStorage st0 !! k) /\
  lookup_entry key st1 = lookup_entry key st /\
  (lookup_entry key st = None ->
   fst (passesStorageRules config cfg st1) = Ok (le (Int (next_draw st)) (threshold cfg))) /\
  (forall st0,
     quarantine_status key st0 = Blocking ->
     fst (passesStorageRules config cfg st0) = Ok false /\
     draws (snd (passesStorageRules config cfg st0)) = draws st0) /\
  (forall st0 q,
     quarantine_status key st0 = Clear ->
     quarantine_days cfg = Some q ->
     le (Int (next_draw st0)) (threshold cfg) = true \/ userSampling config = true ->
     localStorage (snd (passesStorageRules config cfg st0)) !! key
     = Some (Json (Item (VStr "true")
                     (Some (clock st0 (ticks (after_read key st0)) + q * 86400 * 1000))))) /\
  (forall candidates,
     normalizeSurveyIdToArray candidates = [surveyId] ->
     gt (priority_number cfg) (Int (-1)) = true ->
     lookup_entry key st = None ->
     fst (chooseSurvey config candidates st1)
     = Ok (if le (Int (next_draw st)) (threshold cfg) then Some (normalize cfg) else None)) /\
  (forall candidates st0,
     normalizeSurveyIdToArray candidates = [surveyId] ->
     surveyConfigurations st0 !! surveyId = Some cfg ->
     quarantine_status key st0 = Blocking ->
     fst (chooseSurvey config candidates st0) = Ok None).
Proof.
  intros Hcfg Hdiff key st1.
  assert (Hkey : quarantineKeyPrefix config +:+ surveyId <> key).
  { unfold key, quarantine_key. intros Heq. apply String.app_inj in Heq. congruence. }
  assert (Hst1 : lookup_entry key st1 = lookup_entry key st /\
                 random st1 = random st /\ draws st1 = draws st /\
                 surveyConfigurations st1 = surveyConfigurations st).
  { unfold st1, quarantineSurvey. cbn [ToString].
    destruct (ToBoolean days && gt_zero string_gt_zero days);
      rewrite run_bind, setWithExpiry_run.
    - destruct (parseInt days) as [d|]; [destruct (d =? 0)|];
        rewrite emit_run; unfold lookup_entry; cbn;
        rewrite ?lookup_insert_ne by exact Hkey; repeat split; reflexivity.
    - cbn. rewrite emit_run. unfold lookup_entry. cbn.
      rewrite lookup_insert_ne by exact Hkey. repeat split; reflexivity. }
  destruct Hst1 as (Hlook & Hrandom & Hdraws & Hreg).
  destruct (normalize_key config cfg) as [Hnkey Hnthr]. fold key in Hnkey.
  split; [|split; [|split; [|split; [|split; [|split]]]]].
  - intros k st0 Hk. destruct (passesStorageRules_frame config cfg st0 k Hk) as [-> ->].
    split; reflexivity.
  - exact Hlook.
  - intros Hnone. rewrite check_absent by (fold key; rewrite Hlook; exact Hnone).
    unfold next_draw. rewrite Hrandom, Hdraws. reflexivity.
  - intros st0 Hb. destruct (blocked_check config cfg st0 Hb) as (st' & -> & Hd & _).
    split; [reflexivity | exact Hd].
  - intros st0 q Hclear Hq Hwrite.
    rewrite passesStorageRules_run. cbn zeta. fold key. rewrite Hclear, Hq.
    destruct (after_read_frame key st0) as (_ & _ & Hclock & _).
    assert (Hdw : forall n,
              localStorage (durable_write key q (set_draws n (after_read key st0))) !! key
              = Some (Json (Item (VStr "true")
                              (Some (clock st0 (ticks (after_read key st0))
                                     + q * 86400 * 1000))))).
    { intros n. cbn. rewrite lookup_insert_eq, Hclock. unfold ms_per_day.
      replace (q * (24 * 60 * 60 * 1000)) with (q * 86400 * 1000) by lia. reflexivity. }
    destruct (le (Int (next_draw st0)) (threshold cfg)); [apply Hdw|].
    destruct Hwrite as [Hin | Hus]; [discriminate|]. rewrite Hus. apply Hdw.
  - intros candidates Hids Hgt Hnone.
    rewrite (chooseSurvey_single config candidates surveyId cfg st1 Hids)
      by (rewrite Hreg; exact Hcfg).
    rewrite Hgt, check_absent by (rewrite Hnkey; unfold arrive, lookup_entry in *; cbn;
                                  rewrite <- Hnone, <- Hlook; reflexivity).
    rewrite Hnthr. unfold next_draw, arrive. cbn [random draws set_surveyConfigurations].
    rewrite Hrandom, Hdraws. destruct (le _ _); reflexivity.
  - intros candidates st0 Hids Hraw Hb.
    rewrite (chooseSurvey_single config candidates surveyId cfg st0 Hids Hraw).
    destruct (gt (priority_number cfg) (Int (-1))); [|reflexivity].
    destruct (blocked_check config (normalize cfg) (arrive surveyId cfg st0))
      as (st' & -> & _); [|reflexivity].
    rewrite Hnkey. exact Hb.
Qed.

Lemma C10_key_is_built_from_survey_id_witness :
  let X := demo_survey "X" "100" "0" (VInt 1) in
  let st1 := snd (quarantineSurvey (fun _ => false) default_config (VStr "A") (VInt 7)
                    renamed_state) in
  let blocked :=
    set_sessionStorage {["neb_X" := Json (Item (VStr "true") None)]} renamed_state in
  localStorage st1 !! "neb_A"
    = Some (Json (Item (VStr "true") (Some (1000 + 7 * 86400 * 1000)))) /\
  fst (passesStorageRules default_config X st1) = Ok true /\
  fst (chooseSurvey default_config (VStr "A") st1) = Ok (Some X) /\
  fst (passesStorageRules default_config X blocked) = Ok false /\
  fst (chooseSurvey default_config (VStr "A") blocked) = Ok None.
Proof.
  cbn zeta.
  pose proof (C10_key_is_built_from_survey_id (fun _ => false) default_config "A"
                (demo_survey "X" "100" "0" (VInt 1)) (VInt 7) renamed_state
                eq_refl ltac:(discriminate))
    as (_ & _ & Hcheck & Hread & _ & Hchoose & Hblock).
  cbn zeta in Hcheck, Hread, Hchoose, Hblock.
  split; [vm_compute; reflexivity|]. split; [|split; [|split]].
  - rewrite Hcheck; reflexivity.
  - rewrite (Hchoose (VStr "A")); reflexivity.
  - apply Hread. reflexivity.
  - apply Hblock; reflexivity.
Defined.

(** ** Readable stores *)

Lemma readable_not_corrupt key st :
  readable st -> quarantine_status key st <> Corrupt.
Proof.
  intros [Hl Hs]. unfold quarantine_status, entry_status, lookup_entry.
  destruct (stored_truthy (localStorage st !! key)) eqn:Htruthy.
  - destruct (localStorage st !! key) as [[text|it]|] eqn:Hlook; [| |discriminate].
    + apply (map_Forall_lookup_1 _ _ _ _ Hl) in Hlook. cbn in Hlook. subst text. discriminate.
    + destruct (expired _ it); [discriminate|]. destruct (ToBoolean _); discriminate.
  - destruct (sessionStorage st !! key) as [[text|it]|] eqn:Hlook; [| |discriminate].
    + apply (map_Forall_lookup_1 _ _ _ _ Hs) in Hlook. cbn in Hlook. subst text. discriminate.
    + destruct (expired _ it); [discriminate|]. destruct (ToBoolean _); discriminate.
Qed.

Lemma readable_after_read key st : readable st -> readable (after_read key st).
Proof.
  intros [Hl Hs].
  destruct (after_read_frame key st) as (_ & Hsess & _).
  split; [|rewrite Hsess; exact Hs].
  destruct (after_read_local key st) as [-> | ->]; [exact Hl|].
  apply map_Forall_delete. exact Hl.
Qed.

Lemma readable_durable_write key q st : readable st -> readable (durable_write key q st).
Proof.
  intros [Hl Hs]. split; [|exact Hs]. cbn.
  apply map_Forall_insert_2; [exact I | exact Hl].
Qed.

Lemma passesStorageRules_readable config survey st :
  readable st ->
  exists b st',
    passesStorageRules config survey st = (Ok b, st') /\ readable st'.
Proof.
  intros Hr. set (key := quarantine_key config survey).
  pose proof (readable_not_corrupt key st Hr) as Hnc.
  pose proof (readable_after_read key st Hr) as Hafter.
  rewrite passesStorageRules_run. cbn zeta. fold key.
  destruct (quarantine_status key st); [| |congruence].
  - eexists. eexists. split; [reflexivity|]. exact Hafter.
  - assert (Hd : readable (set_draws (S (draws st)) (after_read key st))) by exact Hafter.
    destruct (le _ _); [|destruct (userSampling config)];
      [destruct (quarantine_days survey)| destruct (quarantine_days survey) |];
      (eexists; eexists; split; [reflexivity|]);
      try exact Hd; apply (readable_durable_write key _ _ Hd).
Qed.

Lemma loop_readable config ids : forall m c st,
  readable st ->
  exists r st', chooseSurvey_loop config ids m c st = (Ok r, st') /\ readable st'.
Proof.
  induction ids as [|surveyId rest IH]; intros m c st Hr.
  - exists (m, c), st. split; [reflexivity | exact Hr].
  - destruct (surveyConfigurations st !! surveyId) as [raw|] eqn:Hraw.
    + rewrite (loop_resolved _ _ _ _ _ _ _ Hraw).
      assert (Harr : readable (arrive surveyId raw st)) by exact Hr.
      destruct (gt (priority_number raw) m); [|apply IH; exact Harr].
      destruct (passesStorageRules_readable config (normalize raw) _ Harr)
        as (b & st2 & -> & Hr2).
      destruct b; apply IH; exact Hr2.
    + rewrite (loop_missing _ _ _ _ _ _ Hraw). apply IH. exact Hr.
Qed.

(** C2 as stated fails: a damaged string under the key of a candidate makes
    the quarantine read throw, and [chooseSurvey] lets the [SyntaxError]
    through to its caller. *)
Lemma C2_corrupted_record_raises :
  localStorage corrupted_state !! "neb_A" = Some (Unparsable "{oops") /\
  fst (chooseSurvey default_config (VStr "A") corrupted_state) = Throw (SyntaxError "{oops").
Proof. vm_compute. split; reflexivity. Qed.

Lemma passesStorageRules_corrupt config survey st :
  quarantine_status (quarantine_key config survey) st = Corrupt ->
  exists text,
    lookup_entry (quarantine_key config survey) st = Some (Unparsable text) /\
    passesStorageRules config survey st = (Throw (SyntaxError text), st).
Proof.
  intros Hc. rewrite passesStorageRules_run. cbn zeta. rewrite Hc.
  unfold quarantine_status, entry_status in Hc.
  destruct (lookup_entry _ st) as [[text|it]|]; [| |discriminate].
  - exists text. split; reflexivity.
  - destruct (expired _ it); [discriminate|]. destruct (ToBoolean _); discriminate.
Qed.

(** C2, amended.  As long as every stored string is empty or the
    serialization of a record, [chooseSurvey] returns normally (and leaves
    the stores in that condition); [quarantineSurvey] returns normally in
    every state.  A non-empty string that is not JSON, found under the key
    of a survey whose eligibility is checked, is not treated as absence: the
    check throws the [SyntaxError] of the parse and changes nothing, and
    when the loop of [chooseSurvey] reaches such a survey with a priority
    above the running maximum, the call ends there with that [SyntaxError].
    (The storage calls themselves are taken to succeed.) *)
Theorem C2_errors_only_from_unparsable_records string_gt_zero config :
  (forall candidates st,
     readable st ->
     exists r st', chooseSurvey config candidates st = (Ok r, st') /\ readable st') /\
  (forall surveyId days st,
     exists st', quarantineSurvey string_gt_zero config surveyId days st = (Ok tt, st')) /\
  (forall survey st,
     quarantine_status (quarantine_key config survey) st = Corrupt ->
     exists text,
       lookup_entry (quarantine_key config survey) st = Some (Unparsable text) /\
       passesStorageRules config survey st = (Throw (SyntaxError text), st)) /\
  (forall candidates st pre surveyId post m0 c0 cfg st1,
     normalizeSurveyIdToArray candidates = (pre ++ surveyId :: post)%list ->
     reaches config st pre surveyId m0 c0 cfg st1 ->
     gt (priority_number cfg) m0 = true ->
     quarantine_status (quarantine_key config cfg) st1 = Corrupt ->
     exists text,
       lookup_entry (quarantine_key config cfg) st1 = Some (Unparsable text) /\
       chooseSurvey config candidates st = (Throw (SyntaxError text), st1)).
Proof.
  split; [|split; [|split]].
  - intros candidates st Hr. rewrite chooseSurvey_run.
    destruct (normalizeSurveyIdToArray candidates) as [|surveyId rest];
      [exists None, st; split; [reflexivity | exact Hr]|].
    cbv beta iota zeta.
    destruct (loop_readable config (surveyId :: rest) (Int (-1)) None st Hr)
      as ([m c] & st' & -> & Hr').
    destruct c as [ch|]; eexists; eexists; (split; [reflexivity | exact Hr']).
  - intros surveyId days st. unfold quarantineSurvey.
    destruct (ToBoolean days && gt_zero string_gt_zero days);
      rewrite run_bind, setWithExpiry_run.
    + destruct (parseInt days) as [d|]; [destruct (d =? 0)|];
        rewrite emit_run; eexists; reflexivity.
    + cbn. rewrite emit_run. eexists. reflexivity.
  - intros survey st Hc. exact (passesStorageRules_corrupt config survey st Hc).
  - intros candidates st pre surveyId post m0 c0 cfg st1 Hids
           (st0 & raw & Hpre & Hraw & -> & ->) Hgt Hc.
    destruct (passesStorageRules_corrupt _ _ _ Hc) as (text & Hlook & Hthrow).
    exists text. split; [exact Hlook|].
    rewrite priority_number_normalize in Hgt.
    rewrite chooseSurvey_run, Hids.
    assert (Hloop : chooseSurvey_loop config (pre ++ surveyId :: post)%list (Int (-1)) None st
                    = (Throw (SyntaxError text), arrive surveyId raw st0)).
    { rewrite loop_app, Hpre, (loop_resolved _ _ _ _ _ _ _ Hraw), Hgt, Hthrow.
      reflexivity. }
    destruct (pre ++ surveyId :: post)%list as [|y ys] eqn:Hsplit;
      [destruct pre; discriminate|].
    cbv beta iota zeta. rewrite Hloop. reflexivity.
Qed.

Lemma C2_errors_only_from_unparsable_records_witness :
  (exists r st', chooseSurvey default_config (VStr "A,B") (demo_quarantined 500) = (Ok r, st')) /\
  (exists text,
     passesStorageRules default_config (demo_survey "A" "100" "21" (VInt 1)) corrupted_state
     = (Throw (SyntaxError text), corrupted_state)) /\
  (exists text,
     chooseSurvey default_config (VStr "A,B") corrupted_state
     = (Throw (SyntaxError text), corrupted_state)).
Proof.
  split; [|split].
  - destruct (proj1 (C2_errors_only_from_unparsable_records (fun _ => false) default_config)
                (VStr "A,B") (demo_quarantined 500)) as (r & st' & Hrun & _).
    + split; cbn.
      * apply map_Forall_singleton. exact I.
      * apply map_Forall_empty.
    + exists r, st'. exact Hrun.
  - destruct (proj1 (proj2 (proj2
                (C2_errors_only_from_unparsable_records (fun _ => false) default_config)))
                (demo_survey "A" "100" "21" (VInt 1)) corrupted_state eq_refl)
      as (text & _ & Hthrow).
    exists text. exact Hthrow.
  - destruct (proj2 (proj2 (proj2
                (C2_errors_only_from_unparsable_records (fun _ => false) default_config)))
                (VStr "A,B") corrupted_state [] "A" ["B"] (Int (-1)) None
                (demo_survey "A" "100" "21" (VInt 1)) corrupted_state)
      as (text & _ & Hthrow).
    + reflexivity.
    + exists corrupted_state, (demo_survey "A" "100" "21" (VInt 1)).
      repeat split; reflexivity.
    + reflexivity.
    + reflexivity.
    + exists text. exact Hthrow.
Defined.

(** C1 as stated fails: with candidates [B] (priority 2) then [A]
    (priority 1), [A] resolves in the registry but is never evaluated: one
    draw only, no quarantine entry for [A], no event about [A].  In the
    other order both are evaluated and the entry of [A] is written. *)
Lemma C1_later_lower_priority_candidate_skipped :
  let st' := snd (chooseSurvey default_config (VStr "B,A") (demo_state 50)) in
  let st'' := snd (chooseSurvey default_config (VStr "A,B") (demo_state 50)) in
  surveyConfigurations (demo_state 50) !! "A" = Some (demo_survey "A" "100" "21" (VInt 1)) /\
  draws st' = 1%nat /\
  localStorage st' !! "neb_A" = None /\
  trace st' =
    [Event "survey_included_by_sampling"
       [("survey_id", VStr "B"); ("percentage", VInt 100)];
     Event "survey_chosen" [("survey_id", VStr "B"); ("priority", VInt 2)]] /\
  draws st'' = 2%nat /\
  localStorage st'' !! "neb_A"
    = Some (Json (Item (VStr "true") (Some (1000 + 21 * 86400 * 1000)))).
Proof. vm_compute. repeat split; reflexivity. Qed.

(** C1, amended.  When the loop reaches a candidate that resolves in the
    registry, only the registry is touched to normalize the priority.  The
    eligibility check of the candidate is then run exactly when its priority
    is strictly above the running maximum; otherwise the loop goes on to the
    next candidate at once, with no quarantine lookup, no draw, no
    quarantine write and no event for this one. *)
Theorem C1_check_runs_only_above_running_maximum
    config surveyId rest m c st raw :
  surveyConfigurations st !! surveyId = Some raw ->
  let st1 := arrive surveyId raw st in
  (localStorage st1 = localStorage st /\ sessionStorage st1 = sessionStorage st /\
   draws st1 = draws st /\ ticks st1 = ticks st /\ trace st1 = trace st) /\
  (gt (priority_number raw) m = true ->
   chooseSurvey_loop config (surveyId :: rest) m c st =
   match passesStorageRules config (normalize raw) st1 with
   | (Ok true, st2) =>
       chooseSurvey_loop config rest (priority_number raw) (Some (normalize raw)) st2
   | (Ok false, st2) => chooseSurvey_loop config rest m c st2
   | (Throw e, st2) => (Throw e, st2)
   end) /\
  (gt (priority_number raw) m = false ->
   chooseSurvey_loop config (surveyId :: rest) m c st =
   chooseSurvey_loop config rest m c st1).
Proof.
  intros Hraw st1. split; [repeat split|split]; intros Hgt;
    rewrite (loop_resolved _ _ _ _ _ _ _ Hraw), Hgt; reflexivity.
Qed.

Lemma C1_check_runs_only_above_running_maximum_witness :
  chooseSurvey_loop default_config ["A"] (Int 2) None (demo_state 50)
  = chooseSurvey_loop default_config [] (Int 2) None
      (arrive "A" (demo_survey "A" "100" "21" (VInt 1)) (demo_state 50)) /\
  fst (chooseSurvey_loop default_config ["A"] (Int 0) None (demo_state 50))
  = Ok (Int 1, Some (demo_survey "A" "100" "21" (VInt 1))).
Proof.
  split.
  - apply (C1_check_runs_only_above_running_maximum default_config "A" [] (Int 2) None
             (demo_state 50) (demo_survey "A" "100" "21" (VInt 1)) eq_refl).
    reflexivity.
  - rewrite (proj1 (proj2 (C1_check_runs_only_above_running_maximum default_config "A" []
                             (Int 0) None (demo_state 50)
                             (demo_survey "A" "100" "21" (VInt 1)) eq_refl)))
      by reflexivity.
    vm_compute. reflexivity.
Defined.

(** ** Highest priority, first seen *)

Lemma chooseSurvey_result config candidates st r st' :
  chooseSurvey config candidates st = (Ok r, st') ->
  (normalizeSurveyIdToArray candidates = [] /\ r = None) \/
  exists m st2,
    chooseSurvey_loop config (normalizeSurveyIdToArray candidates) (Int (-1)) None st
    = (Ok (m, r), st2).
Proof.
  rewrite chooseSurvey_run.
  destruct (normalizeSurveyIdToArray candidates) as [|surveyId rest];
    [intros H; injection H as <- _; left; split; reflexivity|].
  cbv beta iota zeta.
  destruct (chooseSurvey_loop _ _ _ _ _) as [[[m [c|]]|e] st2]; intros H;
    [| |discriminate]; injection H as <- _; right; exists m, st2; reflexivity.
Qed.


(** Once the loop has gone past a candidate that passes its check (or would
    pass it, had it been checked) with a priority above the sentinel, the
    best candidate so far has at least that priority. *)
Lemma loop_past_eligible config pre surveyId m0 c0 st st0 raw p :
  chooseSurvey_loop config pre (Int (-1)) None st = (Ok (m0, c0), st0) ->
  surveyConfigurations st0 !! surveyId = Some raw ->
  priority_number raw = Int p -> -1 < p ->
  fst (passesStorageRules config (normalize raw) (arrive surveyId raw st0)) = Ok true ->
  exists z1 ch1 st1,
    p <= z1 /\ priority ch1 = VInt z1 /\
    chooseSurvey_loop config (pre ++ [surveyId])%list (Int (-1)) None st
      = (Ok (Int z1, Some ch1), st1).
Proof.
  intros Hpre Hraw Hp Hpos Hpass.
  destruct (loop_inv _ _ _ _ _ _ _ _ best_inv_init Hpre) as ((z0 & -> & Hc0) & _).
  rewrite loop_app, Hpre, (loop_resolved _ _ _ _ _ _ _ Hraw), Hp.
  destruct (passesStorageRules _ _ _) as [res st2]. cbn in Hpass. subst res.
  cbn [gt]. destruct (z0 <? p) eqn:Hlt.
  - exists p, (normalize raw), st2. split; [lia|]. split; [|reflexivity].
    rewrite priority_normalize, Hp. reflexivity.
  - destruct c0 as [ch0|]; [|lia]. destruct Hc0 as [Hprio _].
    exists z0, ch0, (arrive surveyId raw st0). split; [lia|]. split; [exact Hprio|reflexivity].
Qed.

(** C5 as stated fails: a survey of priority -1, or one whose priority does
    not parse, passes its eligibility check and still is not returned, even
    as the only candidate. *)
Lemma C5_eligible_candidate_not_returned :
  fst (passesStorageRules default_config (demo_survey "N" "100" "0" (VInt (-1))) unranked_state)
    = Ok true /\
  fst (chooseSurvey default_config (VStr "N") unranked_state) = Ok None /\
  fst (passesStorageRules default_config (normalize (demo_survey "U" "100" "0" VUndefined))
         unranked_state) = Ok true /\
  fst (chooseSurvey default_config (VStr "U") unranked_state) = Ok None.
Proof. vm_compute. repeat split; reflexivity. Qed.

(** C5, amended.  Whatever [chooseSurvey] returns was selected by an
    eligibility check that it passed.  And for every candidate whose
    priority is an integer above -1 and whose eligibility check returns
    [true] in the state in which the loop reaches it, a survey is returned
    and its priority is at least that of the candidate; when the two
    priorities are equal, the returned survey was already the best one right
    after that candidate was visited, so that no later candidate of the same
    priority replaces an earlier one (the comparison is strict). *)
Theorem C5_highest_priority_first_seen config candidates st r st' :
  chooseSurvey config candidates st = (Ok r, st') ->
  (forall ch, r = Some ch -> exists st1, selected_at config candidates st ch st1) /\
  (forall pre surveyId post m0 c0 cfg st1 p,
     normalizeSurveyIdToArray candidates = (pre ++ surveyId :: post)%list ->
     reaches config st pre surveyId m0 c0 cfg st1 ->
     priority cfg = VInt p -> -1 < p ->
     fst (passesStorageRules config cfg st1) = Ok true ->
     exists ch q,
       r = Some ch /\ priority ch = VInt q /\ p <= q /\
       (q = p ->
        exists st2,
          chooseSurvey_loop config (pre ++ [surveyId])%list (Int (-1)) None st
          = (Ok (Int p, Some ch), st2))).
Proof.
  intros Hrun. split.
  - intros ch ->. exact (chooseSurvey_selected _ _ _ _ _ Hrun).
  - intros pre surveyId post m0 c0 cfg st1 p Hids (st0 & raw & Hpre & Hraw & -> & ->)
           Hprio Hpos Hpass.
    assert (Hp : priority_number raw = Int p).
    { rewrite priority_normalize in Hprio. injection Hprio as ->. reflexivity. }
    destruct (loop_past_eligible _ _ _ _ _ _ _ _ _ Hpre Hraw Hp Hpos Hpass)
      as (z1 & ch1 & st2 & Hle & Hprio1 & Hstep).
    destruct (chooseSurvey_result _ _ _ _ _ Hrun) as [[Hnil _] | (m & st3 & Hloop)];
      [rewrite Hids in Hnil; destruct pre; discriminate|].
    rewrite Hids, (cons_middle surveyId pre post), app_assoc, loop_app, Hstep in Hloop.
    assert (Hinv1 : best_inv (Int z1) (Some ch1)).
    { exists z1. split; [reflexivity|]. split; [exact Hprio1 | lia]. }
    destruct (loop_inv _ _ _ _ _ _ _ _ Hinv1 Hloop)
      as ((zf & -> & Hcf) & y & y' & Hy & Hy' & Hmono & Hsame).
    injection Hy as <-. injection Hy' as <-.
    destruct r as [ch|]; [|lia]. destruct Hcf as [Hpf _].
    exists ch, zf. split; [reflexivity|]. split; [exact Hpf|]. split; [lia|].
    intros ->. assert (Hz : p = z1) by lia. subst z1.
    exists st2. rewrite Hstep, (Hsame eq_refl). reflexivity.
Qed.

Lemma C5_highest_priority_first_seen_witness :
  exists ch q,
    fst (chooseSurvey default_config (VStr "A,B") (demo_state 50)) = Ok (Some ch) /\
    priority ch = VInt q /\ 1 <= q.
Proof.
  destruct (chooseSurvey default_config (VStr "A,B") (demo_state 50)) as [r st'] eqn:Hrun.
  assert (Hok : exists r0, r = Ok r0).
  { vm_compute in Hrun. injection Hrun as <- _. eexists. reflexivity. }
  destruct Hok as (r0 & ->).
  destruct (proj2 (C5_highest_priority_first_seen _ _ _ _ _ Hrun)
              [] "A" ["B"] (Int (-1)) None
              (demo_survey "A" "100" "21" (VInt 1))
              (arrive "A" (demo_survey "A" "100" "21" (VInt 1)) (demo_state 50)) 1)
    as (ch & q & -> & Hq & Hle & _).
  - reflexivity.
  - exists (demo_state 50), (demo_survey "A" "100" "21" (VInt 1)).
    repeat split; reflexivity.
  - reflexivity.
  - lia.
  - vm_compute. reflexivity.
  - exists ch, q. repeat split; [exact Hq | exact Hle].
Defined.

(** * Further properties of the engine *)

(** ** Effects of one check and of the loop *)

Lemma evolves_refl st : evolves st st.
Proof.
  split; try reflexivity; try (intros k; left; reflexivity).
  exists []. symmetry. apply app_nil_r.
Qed.

Lemma evolves_trans a b c : evolves a b -> evolves b c -> evolves a c.
Proof.
  intros [Hc1 Hr1 Ht1 Hd1 [m1 Htr1] Hs1 Hg1 Hl1] [Hc2 Hr2 Ht2 Hd2 [m2 Htr2] Hs2 Hg2 Hl2].
  split; try congruence; try lia.
  - exists (m1 ++ m2)%list. rewrite Htr2, Htr1, app_assoc. reflexivity.
  - intros k. destruct (Hg2 k) as [-> | (raw2 & Hb & ->)]; [apply Hg1|].
    destruct (Hg1 k) as [Heq | (raw1 & Ha & Hb')].
    + right. exists raw2. split; [congruence | reflexivity].
    + right. exists raw1. split; [exact Ha|].
      rewrite Hb' in Hb. injection Hb as <-. rewrite normalize_idem. reflexivity.
  - intros k. destruct (Hl2 k) as [-> | [-> | [e ->]]]; [apply Hl1 | right; left; reflexivity|].
    right; right. exists e. reflexivity.
Qed.

Lemma evolves_add_trace o st : evolves st (add_trace o st).
Proof.
  split; try reflexivity; try (intros k; left; reflexivity).
  exists o. reflexivity.
Qed.

Lemma evolves_arrive surveyId raw st :
  surveyConfigurations st !! surveyId = Some raw -> evolves st (arrive surveyId raw st).
Proof.
  intros Hraw. split; try reflexivity; try (intros k; left; reflexivity).
  - exists []. symmetry. apply app_nil_r.
  - intros k. cbn. destruct (decide (k = surveyId)) as [-> | Hne].
    + right. exists raw. split; [exact Hraw | apply lookup_insert_eq].
    + left. apply lookup_insert_ne. congruence.
Qed.

Lemma evolves_set_draws n st : (draws st <= n)%nat -> evolves st (set_draws n st).
Proof.
  intros Hn. split; try reflexivity; try (intros k; left; reflexivity); [exact Hn|].
  exists []. symmetry. apply app_nil_r.
Qed.

Lemma evolves_after_read key st : evolves st (after_read key st).
Proof.
  destruct (after_read_frame key st) as (Hg & Hs & Hc & Hr & Hd & Ht & Hticks).
  split; try assumption; [lia | exists []; rewrite Ht; symmetry; apply app_nil_r | |].
  - intros k. left. rewrite Hg. reflexivity.
  - intros k. destruct (after_read_local key st) as [-> | ->]; [left; reflexivity|].
    destruct (decide (k = key)) as [-> | Hne].
    + right; left. apply lookup_delete_eq.
    + left. apply lookup_delete_ne. congruence.
Qed.

Lemma evolves_durable_write key q st : evolves st (durable_write key q st).
Proof.
  split; try reflexivity; try (intros k; left; reflexivity);
    [cbn; lia | exists []; symmetry; apply app_nil_r|].
  intros k. cbn. destruct (decide (k = key)) as [-> | Hne].
  - right; right. eexists. apply lookup_insert_eq.
  - left. apply lookup_insert_ne. congruence.
Qed.

Lemma passesStorageRules_evolves config survey st :
  evolves st (snd (passesStorageRules config survey st)).
Proof.
  set (key := quarantine_key config survey).
  pose proof (evolves_after_read key st) as Hread.
  assert (Hdraw : evolves st (set_draws (S (draws st)) (after_read key st))).
  { apply (evolves_trans _ _ _ Hread). apply evolves_set_draws.
    destruct (after_read_frame key st) as (_ & _ & _ & _ & -> & _). lia. }
  rewrite passesStorageRules_run. cbn zeta. fold key.
  destruct (quarantine_status key st).
  - cbn [snd]. eapply evolves_trans; [|apply evolves_add_trace].
    eapply evolves_trans; [|apply evolves_add_trace]. exact Hread.
  - destruct (le _ _); [|destruct (userSampling config)];
      [destruct (quarantine_days survey)| destruct (quarantine_days survey) |];
      cbn [snd];
      repeat (eapply evolves_trans; [|apply evolves_add_trace]);
      try exact Hdraw;
      (eapply evolves_trans; [exact Hdraw | apply evolves_durable_write]).
  - destruct (lookup_entry key st) as [[text|it]|]; apply evolves_refl.
Qed.

Lemma loop_evolves config ids : forall m c st,
  evolves st (snd (chooseSurvey_loop config ids m c st)).
Proof.
  induction ids as [|surveyId rest IH]; intros m c st; [apply evolves_refl|].
  destruct (surveyConfigurations st !! surveyId) as [raw|] eqn:Hraw.
  - rewrite (loop_resolved _ _ _ _ _ _ _ Hraw).
    pose proof (evolves_arrive surveyId raw st Hraw) as Harr.
    destruct (gt (priority_number raw) m);
      [|eapply evolves_trans; [exact Harr | apply IH]].
    pose proof (passesStorageRules_evolves config (normalize raw) (arrive surveyId raw st))
      as Hpass.
    destruct (passesStorageRules _ _ _) as [[[|]|e] st2]; cbn [snd] in Hpass;
      (eapply evolves_trans; [exact Harr|]);
      [eapply evolves_trans; [exact Hpass | apply IH]
      |eapply evolves_trans; [exact Hpass | apply IH]
      |exact Hpass].
  - rewrite (loop_missing _ _ _ _ _ _ Hraw).
    eapply evolves_trans; [apply evolves_add_trace | apply IH].
Qed.

Lemma chooseSurvey_evolves config candidates st :
  evolves st (snd (chooseSurvey config candidates st)).
Proof.
  rewrite chooseSurvey_run.
  destruct (normalizeSurveyIdToArray candidates) as [|surveyId rest]; [apply evolves_refl|].
  cbv beta iota zeta.
  pose proof (loop_evolves config (surveyId :: rest) (Int (-1)) None st) as Hloop.
  destruct (chooseSurvey_loop _ _ _ _ _) as [[[m [ch|]]|e] st2]; cbn [snd] in *;
    [eapply evolves_trans; [exact Hloop | apply evolves_add_trace] ..| exact Hloop].
Qed.

(** ** What a selection touches *)

(** X1.  [chooseSurvey] never writes the session store and leaves the clock
    and the random source as they are; each key of the durable store keeps
    its string, loses it, or holds a fresh quarantine record with value
    ["true"] and an expiry afterwards.  This also holds when the call ends
    in an exception. *)
Theorem chooseSurvey_storage_footprint config candidates st :
  let st' := snd (chooseSurvey config candidates st) in
  sessionStorage st' = sessionStorage st /\
  clock st' = clock st /\ random st' = random st /\
  forall k,
    localStorage st' !! k = localStorage st !! k \/
    localStorage st' !! k = None \/
    exists e, localStorage st' !! k = Some (Json (Item (VStr "true") (Some e))).
Proof.
  destruct (chooseSurvey_evolves config candidates st) as [Hc Hr _ _ _ Hs _ Hl].
  repeat split; assumption.
Qed.

(** X2.  [chooseSurvey] changes the registry only by normalizing
    priorities: every key holds afterwards what it held before, or that
    entry with its priority turned into a number.  The survey it returns is
    the normalized entry of one of the candidate ids, and the registry holds
    exactly that entry under the id afterwards. *)
Theorem chooseSurvey_registry config candidates st r st' :
  chooseSurvey config candidates st = (r, st') ->
  (forall k,
     surveyConfigurations st' !! k = surveyConfigurations st !! k \/
     exists raw, surveyConfigurations st !! k = Some raw /\
                 surveyConfigurations st' !! k = Some (normalize raw)) /\
  (forall ch, r = Ok (Some ch) ->
     exists surveyId raw,
       In surveyId (normalizeSurveyIdToArray candidates) /\
       surveyConfigurations st !! surveyId = Some raw /\
       ch = normalize raw /\
       surveyConfigurations st' !! surveyId = Some ch).
Proof.
  intros Hrun. split.
  - pose proof (chooseSurvey_evolves config candidates st) as Hev.
    rewrite Hrun in Hev. apply Hev.
  - intros ch ->. rewrite chooseSurvey_run in Hrun.
    destruct (normalizeSurveyIdToArray candidates) as [|y ys] eqn:Hids; [discriminate|].
    cbv beta iota zeta in Hrun.
    destruct (chooseSurvey_loop config (y :: ys) (Int (-1)) None st)
      as [[[m [c|]]|e] st2] eqn:Hloop; try discriminate.
    injection Hrun as -> <-.
    destruct (loop_selected _ _ _ _ _ _ _ _ Hloop)
      as [[_ Hc] | (pre & id0 & post & m0 & c0 & st0 & raw0 & st3 & Hsplit & Hpre & Hraw0
                    & _ & Hpass & _ & Hch & Hpost)]; [discriminate|].
    injection Hch as ->.
    pose proof (loop_evolves config pre (Int (-1)) None st) as Hev0.
    rewrite Hpre in Hev0. cbn [snd] in Hev0.
    pose proof (passesStorageRules_evolves config (normalize raw0) (arrive id0 raw0 st0))
      as Hev1.
    rewrite Hpass in Hev1. cbn [snd] in Hev1.
    pose proof (loop_evolves config post m (Some (normalize raw0)) st3) as Hev2.
    rewrite Hpost in Hev2. cbn [snd] in Hev2.
    assert (Hinit : exists raw, surveyConfigurations st !! id0 = Some raw /\
                                normalize raw = normalize raw0).
    { destruct (evolves_registry _ _ Hev0 id0) as [Heq | (raw & Ha & Hb)].
      - exists raw0. split; [congruence | reflexivity].
      - exists raw. split; [exact Ha|]. rewrite Hraw0 in Hb. injection Hb as ->.
        symmetry. apply normalize_idem. }
    destruct Hinit as (raw & Hraw & Hnorm).
    exists id0, raw. split; [rewrite Hsplit; apply in_elt|].
    split; [exact Hraw|]. split; [symmetry; exact Hnorm|].
    assert (Harr : surveyConfigurations (arrive id0 raw0 st0) !! id0 = Some (normalize raw0))
      by apply lookup_insert_eq.
    assert (Hkeep : forall a b, evolves a b ->
              surveyConfigurations a !! id0 = Some (normalize raw0) ->
              surveyConfigurations b !! id0 = Some (normalize raw0)).
    { intros a b Hab Ha. destruct (evolves_registry _ _ Hab id0) as [-> | (raw1 & Ha1 & ->)];
        [exact Ha|]. rewrite Ha in Ha1. injection Ha1 as <-. rewrite normalize_idem.
      reflexivity. }
    cbn. apply (Hkeep _ _ Hev2), (Hkeep _ _ Hev1), Harr.
Qed.

Lemma chooseSurvey_registry_witness :
  exists surveyId raw,
    In surveyId (normalizeSurveyIdToArray (VStr "A,B")) /\
    surveyConfigurations (demo_state 50) !! surveyId = Some raw /\
    normalize raw = demo_survey "B" "100" "0" (VInt 2) /\
    surveyConfigurations (snd (chooseSurvey default_config (VStr "A,B") (demo_state 50)))
      !! surveyId = Some (demo_survey "B" "100" "0" (VInt 2)).
Proof.
  destruct (chooseSurvey default_config (VStr "A,B") (demo_state 50)) as [r st'] eqn:Hrun.
  assert (Hr : r = Ok (Some (demo_survey "B" "100" "0" (VInt 2)))).
  { vm_compute in Hrun. injection Hrun as <- _. reflexivity. }
  destruct (proj2 (chooseSurvey_registry _ _ _ _ _ Hrun) _ Hr)
    as (surveyId & raw & Hin & Hraw & Hch & Hfin).
  exists surveyId, raw. repeat split; [exact Hin | exact Hraw | symmetry; exact Hch | exact Hfin].
Defined.

(** ** The trace of a selection *)

Lemma add_trace_app a b st : add_trace b (add_trace a st) = add_trace (a ++ b) st.
Proof. unfold add_trace. cbn. rewrite <- app_assoc. reflexivity. Qed.

(** X3.  A call of [chooseSurvey] that returns is silent exactly on an empty
    candidate list: it then leaves the state as it is and returns [null].
    Otherwise the trace is extended and the last event tells the outcome:
    [survey_chosen] with the id and priority of the returned survey, or
    [survey_none_chosen] with the normalized candidate list. *)
Theorem chooseSurvey_last_event config candidates st r st' :
  chooseSurvey config candidates st = (Ok r, st') ->
  let ids := normalizeSurveyIdToArray candidates in
  (ids = [] -> st' = st /\ r = None) /\
  (ids <> [] ->
   exists more,
     trace st' =
     (trace st ++ more ++
      [match r with
       | Some ch => Event "survey_chosen"
                      [("survey_id", survey_id ch); ("priority", priority ch)]
       | None => Event "survey_none_chosen" [("candidates", VArr (map VStr ids))]
       end])%list).
Proof.
  intros Hrun ids. unfold ids. rewrite chooseSurvey_run in Hrun.
  destruct (normalizeSurveyIdToArray candidates) as [|y ys] eqn:Hids.
  - split; [|congruence]. intros _. injection Hrun as <- <-. split; reflexivity.
  - split; [discriminate|]. intros _. cbv beta iota zeta in Hrun.
    pose proof (loop_evolves config (y :: ys) (Int (-1)) None st) as Hev.
    destruct (chooseSurvey_loop config (y :: ys) (Int (-1)) None st)
      as [[[m [c|]]|e] st2]; [| |discriminate];
      cbn [snd] in Hev; injection Hrun as <- <-;
      destruct (evolves_trace _ _ Hev) as [more Hmore];
      exists more; cbn; rewrite Hmore, <- app_assoc; reflexivity.
Qed.

Lemma chooseSurvey_last_event_witness :
  exists more,
    trace (snd (chooseSurvey default_config (VStr "A,B") (demo_state 50))) =
    (more ++ [Event "survey_chosen" [("survey_id", VStr "B"); ("priority", VInt 2)]])%list.
Proof.
  destruct (chooseSurvey default_config (VStr "A,B") (demo_state 50)) as [r st'] eqn:Hrun.
  assert (Hr : r = Ok (Some (demo_survey "B" "100" "0" (VInt 2)))).
  { vm_compute in Hrun. injection Hrun as <- _. reflexivity. }
  subst r.
  destruct (proj2 (chooseSurvey_last_event _ _ _ _ _ Hrun)) as [more Hmore];
    [discriminate|].
  exists more. exact Hmore.
Defined.

(** ** How much a selection consumes *)

Lemma after_read_ticks key st : (ticks (after_read key st) <= S (ticks st))%nat.
Proof.
  rewrite after_read_spec.
  destruct (lookup_entry key st) as [[text|it]|]; [lia| |lia].
  destruct (expired _ it); cbn; lia.
Qed.

Lemma passesStorageRules_consumes config survey st :
  let st' := snd (passesStorageRules config survey st) in
  (draws st' <= S (draws st))%nat /\ (ticks st' <= 2 + ticks st)%nat.
Proof.
  cbn zeta. set (key := quarantine_key config survey).
  pose proof (after_read_ticks key st) as Ht.
  destruct (after_read_frame key st) as (_ & _ & _ & _ & Hd & _).
  rewrite passesStorageRules_run. cbn zeta. fold key.
  destruct (quarantine_status key st).
  - cbn. lia.
  - destruct (le _ _); [|destruct (userSampling config)];
      [destruct (quarantine_days survey)| destruct (quarantine_days survey) |];
      cbn; lia.
  - destruct (lookup_entry key st) as [[text|it]|]; cbn; lia.
Qed.

Lemma loop_consumes config ids : forall m c st,
  let st' := snd (chooseSurvey_loop config ids m c st) in
  (draws st' <= draws st + length ids)%nat /\ (ticks st' <= ticks st + 2 * length ids)%nat.
Proof.
  induction ids as [|surveyId rest IH]; intros m c st; cbn zeta; [cbn; lia|].
  cbn [length].
  destruct (surveyConfigurations st !! surveyId) as [raw|] eqn:Hraw.
  - rewrite (loop_resolved _ _ _ _ _ _ _ Hraw).
    destruct (gt (priority_number raw) m).
    + pose proof (passesStorageRules_consumes config (normalize raw) (arrive surveyId raw st))
        as Hp. cbn zeta in Hp.
      destruct (passesStorageRules _ _ _) as [[[|]|e] st2]; cbn [snd] in Hp; cbn in Hp;
        [specialize (IH (priority_number raw) (Some (normalize raw)) st2)
        |specialize (IH m c st2)|cbn [snd]; lia]; cbn zeta in IH; lia.
    + specialize (IH m c (arrive surveyId raw st)). cbn in IH. lia.
  - rewrite (loop_missing _ _ _ _ _ _ Hraw).
    specialize (IH m c (add_trace
                          [Event "survey_missing_config" [("survey_id", VStr surveyId)]] st)).
    cbn in IH. lia.
Qed.

(** X4.  A selection makes at most one draw and at most two clock readings
    per candidate id, and never gives any back. *)
Theorem chooseSurvey_consumption config candidates st :
  let st' := snd (chooseSurvey config candidates st) in
  let n := length (normalizeSurveyIdToArray candidates) in
  (draws st <= draws st' <= draws st + n)%nat /\
  (ticks st <= ticks st' <= ticks st + 2 * n)%nat.
Proof.
  cbn zeta.
  destruct (chooseSurvey_evolves config candidates st) as [_ _ Ht Hd _ _ _ _].
  rewrite chooseSurvey_run in *.
  destruct (normalizeSurveyIdToArray candidates) as [|y ys]; [cbn; lia|].
  cbv beta iota zeta in *.
  pose proof (loop_consumes config (y :: ys) (Int (-1)) None st) as Hc. cbn zeta in Hc.
  destruct (chooseSurvey_loop config (y :: ys) (Int (-1)) None st)
    as [[[m [c|]]|e] st2]; cbn [snd] in *; cbn in Ht, Hd |- *; cbn in Hc; lia.
Qed.

(** ** Candidates that do not resolve *)

Lemma loop_all_missing config ids : forall m c st,
  Forall (fun surveyId => surveyConfigurations st !! surveyId = None) ids ->
  chooseSurvey_loop config ids m c st =
  (Ok (m, c),
   add_trace (map (fun surveyId =>
                     Event "survey_missing_config" [("survey_id", VStr surveyId)]) ids) st).
Proof.
  induction ids as [|surveyId rest IH]; intros m c st Hall.
  - cbn. unfold add_trace. rewrite app_nil_r. destruct st; reflexivity.
  - inversion Hall as [|x l Hx Hrest]; subst.
    rewrite (loop_missing _ _ _ _ _ _ Hx), IH by exact Hrest.
    rewrite add_trace_app. reflexivity.
Qed.

(** X5.  When no candidate id is an entry of the registry, nor the name of
    a member the registry object inherits (such as [toString], which the
    property read would find), [chooseSurvey] returns [null] after reporting
    [survey_missing_config] once per id, in order, and then
    [survey_none_chosen]; nothing else changes: no draw, no clock reading,
    no write. *)
Theorem chooseSurvey_all_missing config candidates st :
  let ids := normalizeSurveyIdToArray candidates in
  ids <> [] ->
  Forall (fun surveyId => surveyConfigurations st !! surveyId = None) ids ->
  Forall (fun surveyId => ~ In surveyId Object_prototype_members) ids ->
  chooseSurvey config candidates st =
  (Ok None,
   add_trace
     (map (fun surveyId =>
             Event "survey_missing_config" [("survey_id", VStr surveyId)]) ids ++
      [Event "survey_none_chosen" [("candidates", VArr (map VStr ids))]]) st).
Proof.
  cbn zeta. intros Hne Hall _. rewrite chooseSurvey_run.
  destruct (normalizeSurveyIdToArray candidates) as [|y ys]; [congruence|].
  cbv beta iota zeta. rewrite (loop_all_missing _ _ _ _ _ Hall), add_trace_app.
  reflexivity.
Qed.

Lemma chooseSurvey_all_missing_witness :
  chooseSurvey default_config (VStr "7, 8") (demo_state 50) =
  (Ok None,
   add_trace
     [Event "survey_missing_config" [("survey_id", VStr "7")];
      Event "survey_missing_config" [("survey_id", VStr "8")];
      Event "survey_none_chosen" [("candidates", VArr [VStr "7"; VStr "8"])]]
     (demo_state 50)).
Proof.
  apply (chooseSurvey_all_missing default_config (VStr "7, 8") (demo_state 50)).
  - discriminate.
  - repeat constructor.
  - repeat constructor; cbn; intros Hin;
      repeat (destruct Hin as [Hin | Hin]; [discriminate|]); exact Hin.
Defined.

(** ** Normalized candidate lists *)

Lemma trim_start_head s :
  trim_start s = EmptyString \/
  exists c r, trim_start s = String c r /\ is_white_space c = false.
Proof.
  induction s as [|c s IH]; [left; reflexivity|].
  cbn. destruct (is_white_space c) eqn:Hc; [exact IH|].
  right. exists c, s. split; [reflexivity | exact Hc].
Qed.

Lemma trim_end_head c s :
  is_white_space c = false -> trim_end (String c s) = String c (trim_end s).
Proof.
  intros Hc. cbn. destruct (trim_end s); [rewrite Hc|]; reflexivity.
Qed.

Lemma trim_end_idem s : trim_end (trim_end s) = trim_end s.
Proof.
  induction s as [|c s IH]; [reflexivity|].
  change (trim_end (String c s))
    with (match trim_end s with
          | EmptyString => if is_white_space c then EmptyString else String c EmptyString
          | String d t => String c (String d t)
          end).
  destruct (trim_end s) as [|d t] eqn:Ht.
  - destruct (is_white_space c) eqn:Hc; [reflexivity|]. cbn. rewrite Hc. reflexivity.
  - change (trim_end (String c (String d t)))
      with (match trim_end (String d t) with
            | EmptyString => if is_white_space c then EmptyString else String c EmptyString
            | String d' t' => String c (String d' t')
            end).
    rewrite IH. reflexivity.
Qed.

Lemma trim_idem s : trim (trim s) = trim s.
Proof.
  unfold trim. destruct (trim_start_head s) as [-> | (c & r & -> & Hc)]; [reflexivity|].
  rewrite (trim_end_head _ _ Hc). cbn [trim_start]. rewrite Hc.
  rewrite <- (trim_end_head _ _ Hc). apply trim_end_idem.
Qed.

Lemma trim_start_chars a s :
  In a (list_ascii_of_string (trim_start s)) -> In a (list_ascii_of_string s).
Proof.
  induction s as [|c s IH]; [exact id|].
  cbn. destruct (is_white_space c); [intros H; right; exact (IH H) | exact id].
Qed.

Lemma trim_end_chars a s :
  In a (list_ascii_of_string (trim_end s)) -> In a (list_ascii_of_string s).
Proof.
  induction s as [|c s IH]; [exact id|].
  cbn. destruct (trim_end s) as [|d t].
  - destruct (is_white_space c); cbn; [contradiction | intros [H|[]]; left; exact H].
  - cbn. intros [H|H]; [left; exact H | right; apply IH; exact H].
Qed.

Lemma split_comma_chars s :
  Forall (fun piece => ~ In ","%char (list_ascii_of_string piece)) (split_comma s).
Proof.
  induction s as [|c s IH]; [constructor; [exact id | constructor]|].
  cbn. destruct (Ascii.eqb c ",") eqn:Hc.
  - constructor; [exact id | exact IH].
  - destruct (split_comma s) as [|t ts]; [constructor; [|constructor]|].
    + cbn. intros [H|[]]. subst c. discriminate.
    + inversion IH as [|x l Ht Hts]; subst. constructor; [|exact Hts].
      cbn. intros [H|H]; [subst c; discriminate | exact (Ht H)].
Qed.

Lemma filter_Boolean_In id l : In id (filter_Boolean l) <-> In id l /\ id <> EmptyString.
Proof.
  unfold filter_Boolean. rewrite filter_In. cbn.
  destruct (String.eqb_spec id EmptyString) as [->|Hne]; cbn; intuition congruence.
Qed.

Lemma filter_Boolean_clean l :
  Forall (fun id => id <> EmptyString) l -> filter_Boolean l = l.
Proof.
  induction 1 as [|id l Hid _ IH]; [reflexivity|].
  unfold filter_Boolean in *. cbn [List.filter].
  assert (Hb : ToBoolean (VStr id) = true).
  { cbn. destruct (String.eqb_spec id EmptyString); [congruence | reflexivity]. }
  rewrite Hb, IH. reflexivity.
Qed.

Lemma normalized_ids_trimmed candidates id :
  In id (normalizeSurveyIdToArray candidates) -> id <> EmptyString /\ trim id = id.
Proof.
  unfold normalizeSurveyIdToArray.
  destruct (negb (ToBoolean candidates)); [intros []|].
  assert (Hgen : forall l, In id (filter_Boolean (map trim l)) ->
                           id <> EmptyString /\ trim id = id).
  { intros l Hin. apply filter_Boolean_In in Hin as [Hin Hne]. split; [exact Hne|].
    apply in_map_iff in Hin as (x & <- & _). apply trim_idem. }
  destruct candidates as [| |b|n|s|l]; try apply (Hgen [_]); [apply Hgen|].
  rewrite <- (map_map ToString trim). apply Hgen.
Qed.

(** X6.  Whatever the candidate input, every id of the normalized list is
    non-empty and carries no white space at either end; for a
    comma-separated string, no id contains a comma.  A falsy input gives the
    empty list. *)
Theorem normalizeSurveyIdToArray_ids_are_clean candidates :
  (forall id, In id (normalizeSurveyIdToArray candidates) ->
     id <> EmptyString /\ trim id = id /\
     (forall s, candidates = VStr s -> ~ In ","%char (list_ascii_of_string id))) /\
  (ToBoolean candidates = false -> normalizeSurveyIdToArray candidates = []).
Proof.
  split; [|intros Hf; unfold normalizeSurveyIdToArray; rewrite Hf; reflexivity].
  intros id Hin. destruct (normalized_ids_trimmed _ _ Hin) as [Hne Htrim].
  split; [exact Hne|]. split; [exact Htrim|].
  intros s ->. unfold normalizeSurveyIdToArray in Hin.
  destruct (negb (ToBoolean (VStr s))); [destruct Hin|].
  apply filter_Boolean_In in Hin as [Hin _].
  apply in_map_iff in Hin as (piece & <- & Hpiece).
  pose proof (split_comma_chars s) as Hall. rewrite List.Forall_forall in Hall.
  intros Hc. apply (Hall _ Hpiece). unfold trim in Hc.
  apply trim_start_chars, trim_end_chars. exact Hc.
Qed.

Lemma normalizeSurveyIdToArray_ids_are_clean_witness :
  trim "2467" = "2467" /\ normalizeSurveyIdToArray (VInt 0) = [].
Proof.
  split.
  - apply (proj1 (normalizeSurveyIdToArray_ids_are_clean (VStr " 2467 ,")) "2467").
    left. reflexivity.
  - apply (proj2 (normalizeSurveyIdToArray_ids_are_clean (VInt 0))). reflexivity.
Defined.

(** X7.  Normalizing is idempotent: the normalized list, handed back as an
    array of strings (as the [survey_none_chosen] event carries it),
    normalizes to itself. *)
Theorem normalizeSurveyIdToArray_idempotent candidates :
  normalizeSurveyIdToArray (VArr (map VStr (normalizeSurveyIdToArray candidates)))
  = normalizeSurveyIdToArray candidates.
Proof.
  pose proof (normalized_ids_trimmed candidates) as Hclean.
  set (ids := normalizeSurveyIdToArray candidates) in *.
  unfold normalizeSurveyIdToArray at 1. cbn [ToBoolean negb].
  rewrite map_map. cbn [ToString].
  assert (Hmap : map (fun x => trim x) ids = ids).
  { rewrite <- (map_id ids) at 2. apply map_ext_in. intros id Hin.
    apply (Hclean id Hin). }
  rewrite Hmap. apply filter_Boolean_clean.
  apply List.Forall_forall. intros id Hin. apply (Hclean id Hin).
Qed.

(** ** Manual quarantine *)

Lemma quarantineSurvey_run string_gt_zero config surveyId days st :
  let sid := ToString surveyId in
  let key := quarantineKeyPrefix config +:+ sid in
  quarantineSurvey string_gt_zero config surveyId days st =
  if ToBoolean days && gt_zero string_gt_zero days then
    match parseInt days with
    | Int d =>
        if d =? 0 then (Ok tt, add_trace [quarantined_event sid days "local"] (session_write key st))
        else (Ok tt, add_trace [quarantined_event sid days "local"] (durable_write key d st))
    | NaN => (Ok tt, add_trace [quarantined_event sid days "local"] (session_write key st))
    end
  else (Ok tt, add_trace [quarantined_event sid (VInt 0) "session"] (session_write key st)).
Proof.
  cbn zeta. unfold quarantineSurvey.
  destruct (ToBoolean days && gt_zero string_gt_zero days);
    rewrite run_bind, setWithExpiry_run.
  - destruct (parseInt days) as [d|]; [destruct (d =? 0)|]; rewrite emit_run; reflexivity.
  - cbn. rewrite emit_run. reflexivity.
Qed.

Lemma blocking_record key st e :
  lookup_entry key st = Some (Json (Item (VStr "true") e)) ->
  match e with Some x => clock st (ticks st) <= x | None => True end ->
  quarantine_status key st = Blocking.
Proof.
  intros Hlook Hlive. unfold quarantine_status, entry_status, expired. rewrite Hlook.
  cbn. destruct e as [x|]; [|reflexivity].
  destruct (x <? clock st (ticks st)) eqn:Hlt; [lia|].
  rewrite andb_false_r. reflexivity.
Qed.

(** X8.  A manual quarantine holds at once.  After
    [quarantineSurvey(surveyId, days)] with a positive number of days, the
    eligibility check of any survey whose [survey_id] prints as that id
    returns [false] without a draw and without touching the stores, provided
    the clock has not passed the expiry just written (reaching it exactly
    still blocks).  After a falsy [days] the same holds whenever the durable
    store holds no truthy string under the key. *)
Theorem quarantineSurvey_then_check_blocked string_gt_zero config surveyId survey st :
  ToString (survey_id survey) = ToString surveyId ->
  let key := quarantine_key config survey in
  (forall d,
     0 < d ->
     let st1 := snd (quarantineSurvey string_gt_zero config surveyId (VInt d) st) in
     clock st1 (ticks st1) <= clock st (ticks st) + d * 86400 * 1000 ->
     exists st2,
       passesStorageRules config survey st1 = (Ok false, st2) /\
       draws st2 = draws st /\ localStorage st2 = localStorage st1 /\
       sessionStorage st2 = sessionStorage st1) /\
  (forall days,
     ToBoolean days = false ->
     stored_truthy (localStorage st !! key) = false ->
     let st1 := snd (quarantineSurvey string_gt_zero config surveyId days st) in
     exists st2,
       passesStorageRules config survey st1 = (Ok false, st2) /\
       draws st2 = draws st /\ localStorage st2 = localStorage st1 /\
       sessionStorage st2 = sessionStorage st1).
Proof.
  intros Hid key.
  assert (Hkey : quarantineKeyPrefix config +:+ ToString surveyId = key).
  { unfold key, quarantine_key. rewrite Hid. reflexivity. }
  split.
  - intros d Hd st1 Hclock. unfold st1 in *. clear st1.
    rewrite quarantineSurvey_run in *. cbn zeta in *. rewrite Hkey in *.
    assert (Htest : ToBoolean (VInt d) && gt_zero string_gt_zero (VInt d) = true).
    { cbn. destruct (d =? 0) eqn:Hz; [lia|]. destruct (0 <? d) eqn:Hlt; [reflexivity|lia]. }
    rewrite Htest, parseInt_positive in * by exact Hd.
    destruct (d =? 0) eqn:Hz; [lia|]. cbn [snd] in *.
    match goal with |- exists st2, passesStorageRules _ _ ?s = _ /\ _ =>
      destruct (blocked_check config survey s) as (st2 & Hrun & Hd2 & Hl2 & Hs2) end.
    + apply (blocking_record _ _ (Some (clock st (ticks st) + d * ms_per_day))).
      * unfold lookup_entry. cbn. rewrite lookup_insert_eq. reflexivity.
      * unfold ms_per_day. cbn in Hclock |- *. lia.
    + exists st2. repeat split; assumption.
  - intros days Hfalsy Hlocal st1. unfold st1. clear st1.
    rewrite quarantineSurvey_run. cbn zeta. rewrite Hkey, Hfalsy. cbn [andb snd].
    match goal with |- exists st2, passesStorageRules _ _ ?s = _ /\ _ =>
      destruct (blocked_check config survey s) as (st2 & Hrun & Hd2 & Hl2 & Hs2) end.
    + apply (blocking_record _ _ None); [|exact I].
      unfold lookup_entry.
      cbn [localStorage sessionStorage add_trace set_trace session_write set_sessionStorage].
      fold key. rewrite Hlocal. apply lookup_insert_eq.
    + exists st2. repeat split; assumption.
Qed.

Lemma quarantineSurvey_then_check_blocked_witness :
  fst (passesStorageRules default_config (demo_survey "A" "100" "21" (VInt 1))
         (snd (quarantineSurvey (fun _ => false) default_config (VStr "A") (VInt 3)
                 (demo_state 0)))) = Ok false /\
  fst (passesStorageRules default_config (demo_survey "A" "100" "21" (VInt 1))
         (snd (quarantineSurvey (fun _ => false) default_config (VStr "A") VNull
                 (demo_state 0)))) = Ok false.
Proof.
  split.
  - destruct (proj1 (quarantineSurvey_then_check_blocked (fun _ => false) default_config
                       (VStr "A") (demo_survey "A" "100" "21" (VInt 1)) (demo_state 0)
                       eq_refl) 3 ltac:(lia)) as (st2 & -> & _).
    + vm_compute. discriminate.
    + reflexivity.
  - destruct (proj2 (quarantineSurvey_then_check_blocked (fun _ => false) default_config
                       (VStr "A") (demo_survey "A" "100" "21" (VInt 1)) (demo_state 0)
                       eq_refl) VNull eq_refl eq_refl) as (st2 & -> & _).
    reflexivity.
Defined.

(** X9.  [quarantineSurvey] can report the wrong storage class.  When the
    test [days && days > 0] succeeds but [days] parses to no integer or to
    zero (the boolean [true], say), the record goes to the session store,
    without expiry, while the event says [local]. *)
Theorem quarantineSurvey_local_event_for_session_record
    string_gt_zero config surveyId days st :
  ToBoolean days && gt_zero string_gt_zero days = true ->
  parseInt days = NaN \/ parseInt days = Int 0 ->
  let sid := ToString surveyId in
  let key := quarantineKeyPrefix config +:+ sid in
  quarantineSurvey string_gt_zero config surveyId days st =
  (Ok tt,
   add_trace [Event "survey_quarantined"
                [("survey_id", VStr sid); ("days", days); ("storage", VStr "local")]]
     (set_sessionStorage
        (<[key := Json (Item (VStr "true") None)]> (sessionStorage st)) st)).
Proof.
  intros Htest Hparse. cbn zeta. rewrite quarantineSurvey_run. cbn zeta. rewrite Htest.
  destruct Hparse as [-> | ->]; reflexivity.
Qed.

Lemma quarantineSurvey_local_event_for_session_record_witness :
  let st1 := snd (quarantineSurvey (fun _ => false) default_config (VStr "A") (VBool true)
                    (demo_state 0)) in
  localStorage st1 !! "neb_A" = None /\
  sessionStorage st1 !! "neb_A" = Some (Json (Item (VStr "true") None)) /\
  trace st1 = [Event "survey_quarantined"
                 [("survey_id", VStr "A"); ("days", VBool true); ("storage", VStr "local")]].
Proof.
  cbn zeta.
  rewrite (quarantineSurvey_local_event_for_session_record (fun _ => false) default_config
             (VStr "A") (VBool true) (demo_state 0) eq_refl (or_introl eq_refl)).
  repeat split.
Defined.

(** X10.  [quarantineSurvey] writes one store at one key: the registry, the
    random source and every other key of both stores are as before, one of
    the two stores is untouched altogether, and exactly one event,
    [survey_quarantined], is added.  In particular a session quarantine does
    not lift a durable one, nor the other way round. *)
Theorem quarantineSurvey_footprint string_gt_zero config surveyId days st :
  let key := quarantineKeyPrefix config +:+ ToString surveyId in
  let st1 := snd (quarantineSurvey string_gt_zero config surveyId days st) in
  surveyConfigurations st1 = surveyConfigurations st /\
  draws st1 = draws st /\
  (forall k, k <> key ->
     localStorage st1 !! k = localStorage st !! k /\
     sessionStorage st1 !! k = sessionStorage st !! k) /\
  (localStorage st1 = localStorage st \/ sessionStorage st1 = sessionStorage st) /\
  exists payload, trace st1 = (trace st ++ [Event "survey_quarantined" payload])%list.
Proof.
  cbn zeta. rewrite quarantineSurvey_run. cbn zeta.
  destruct (ToBoolean days && gt_zero string_gt_zero days);
    [destruct (parseInt days) as [d|]; [destruct (d =? 0)|]|];
    cbn; (split; [reflexivity|]); (split; [reflexivity|]);
    (split; [intros k Hk; rewrite ?lookup_insert_ne by congruence; split; reflexivity|]);
    (split; [first [left; reflexivity | right; reflexivity] | eexists; reflexivity]).
Qed.

(** ** Quarantine on sampling *)

(** X11.  A survey that is sampled in and has a positive quarantine length
    is quarantined by that very check: the durable store then holds, under
    its key, a record expiring that many days after the clock reading of the
    write, and as long as the clock has not passed that expiry the next
    check of the survey returns [false] without drawing. *)
Theorem sampled_in_survey_is_quarantined config survey st st' q :
  passesStorageRules config survey st = (Ok true, st') ->
  quarantine_days survey = Some q ->
  let key := quarantine_key config survey in
  let e := clock st (Nat.pred (ticks st')) + q * 86400 * 1000 in
  localStorage st' !! key = Some (Json (Item (VStr "true") (Some e))) /\
  (clock st' (ticks st') <= e ->
   exists st2,
     passesStorageRules config survey st' = (Ok false, st2) /\ draws st2 = draws st').
Proof.
  intros Hrun Hq key e.
  destruct (after_read_frame key st) as (_ & _ & Hclock & _).
  rewrite passesStorageRules_run in Hrun. cbn zeta in Hrun. fold key in Hrun.
  destruct (quarantine_status key st);
    [discriminate| |destruct (lookup_entry key st) as [[text|it]|]; discriminate].
  rewrite Hq in Hrun.
  destruct (le _ _); [|destruct (userSampling config); discriminate].
  injection Hrun as <-.
  assert (Hentry : localStorage
            (add_trace
               [Event "survey_included_by_sampling"
                  [("survey_id", survey_id survey);
                   ("percentage", VNumber (threshold survey))]]
               (add_trace
                  [Event "survey_quarantine_set_on_sample"
                     [("survey_id", survey_id survey); ("days", VInt q)]]
                  (durable_write key q (set_draws (S (draws st)) (after_read key st)))))
            !! key = Some (Json (Item (VStr "true") (Some e)))).
  { unfold e. cbn. rewrite lookup_insert_eq, Hclock. unfold ms_per_day.
    replace (q * (24 * 60 * 60 * 1000)) with (q * 86400 * 1000) by lia. reflexivity. }
  split; [exact Hentry|].
  intros Hlive.
  match goal with |- exists st2, passesStorageRules _ _ ?s = _ /\ _ =>
    destruct (blocked_check config survey s) as (st2 & Hcheck & Hd2 & _) end.
  - apply (blocking_record _ _ (Some e)); [|exact Hlive].
    unfold lookup_entry. fold key. rewrite Hentry. reflexivity.
  - exists st2. split; assumption.
Qed.

Lemma sampled_in_survey_is_quarantined_witness :
  exists st',
    passesStorageRules default_config (demo_survey "A" "100" "21" (VInt 1)) (demo_state 50)
    = (Ok true, st') /\
    fst (passesStorageRules default_config (demo_survey "A" "100" "21" (VInt 1)) st')
    = Ok false.
Proof.
  destruct (passesStorageRules default_config (demo_survey "A" "100" "21" (VInt 1))
              (demo_state 50)) as [r st'] eqn:Hrun.
  assert (Hr : r = Ok true) by (vm_compute in Hrun; injection Hrun as <- _; reflexivity).
  subst r. exists st'. split; [reflexivity|].
  destruct (sampled_in_survey_is_quarantined _ _ _ _ 21 Hrun eq_refl) as [_ Hnext].
  destruct Hnext as (st2 & -> & _); [|reflexivity].
  vm_compute in Hrun. injection Hrun as <-. vm_compute. discriminate.
Defined.

(** ** Numbers written as strings *)




(** ** The sampling comparison *)

(** X13.  Because the comparison with the draw is inclusive, every
    threshold of 99 or more includes every draw of 0..99, and a negative
    threshold excludes every one of them. *)
Theorem sampling_threshold_extremes config survey st t :
  quarantine_status (quarantine_key config survey) st = Clear ->
  threshold survey = Int t ->
  0 <= next_draw st <= 99 ->
  (99 <= t -> fst (passesStorageRules config survey st) = Ok true) /\
  (t < 0 -> fst (passesStorageRules config survey st) = Ok false).
Proof.
  intros Hclear Ht Hr.
  rewrite passesStorageRules_run. cbn zeta. rewrite Hclear, Ht. cbn [le].
  split; intros Hbound.
  - destruct (next_draw st <=? t) eqn:Hle; [|lia].
    destruct (quarantine_days survey); reflexivity.
  - destruct (next_draw st <=? t) eqn:Hle; [lia|].
    destruct (userSampling config); reflexivity.
Qed.

Lemma sampling_threshold_extremes_witness :
  fst (passesStorageRules default_config (demo_survey "A" "99" "0" (VInt 1)) (demo_state 99))
    = Ok true /\
  fst (passesStorageRules default_config (demo_survey "A" "-1" "0" (VInt 1)) (demo_state 0))
    = Ok false.
Proof.
  split.
  - apply (sampling_threshold_extremes default_config (demo_survey "A" "99" "0" (VInt 1))
             (demo_state 99) 99 eq_refl eq_refl); [cbn|]; lia.
  - apply (sampling_threshold_extremes default_config (demo_survey "A" "-1" "0" (VInt 1))
             (demo_state 0) (-1) eq_refl eq_refl); [cbn|]; lia.
Defined.

(** ** Writing and reading back *)

(** X15.  What [setWithExpiry] writes, [getWithExpiry] reads back.  After a
    write with a non-zero number of days, a read of the key returns the
    value (as JSON keeps it) and changes no store, as long as the clock has
    not passed the expiry; reaching the expiry exactly still reads the
    value.  Once the clock is past a non-zero expiry the read returns [null]
    and the durable entry is gone.  After a write with zero or [NaN] days
    the value is read back from the session store whenever the durable
    store holds no truthy string under the key. *)
Theorem setWithExpiry_then_getWithExpiry key v st :
  (forall d,
     d <> 0 ->
     let st1 := snd (setWithExpiry key v (Int d) st) in
     let e := clock st (ticks st) + d * 86400 * 1000 in
     (clock st1 (ticks st1) <= e ->
      getWithExpiry key st1 = (Ok (jsonify v), set_ticks (S (ticks st1)) st1)) /\
     (e < clock st1 (ticks st1) -> e <> 0 ->
      exists st2,
        getWithExpiry key st1 = (Ok VNull, st2) /\ localStorage st2 !! key = None)) /\
  (forall days,
     days = Int 0 \/ days = NaN ->
     stored_truthy (localStorage st !! key) = false ->
     let st1 := snd (setWithExpiry key v days st) in
     getWithExpiry key st1 = (Ok (jsonify v), set_ticks (S (ticks st1)) st1)).
Proof.
  split.
  - intros d Hd st1 e. unfold st1, e. clear st1 e.
    rewrite setWithExpiry_run. destruct (d =? 0) eqn:Hz; [lia|]. cbn [snd].
    unfold ms_per_day.
    replace (d * (24 * 60 * 60 * 1000)) with (d * 86400 * 1000) by lia.
    set (e := clock st (ticks st) + d * 86400 * 1000).
    split.
    + intros Hlive. rewrite getWithExpiry_run. unfold lookup_entry. cbn.
      rewrite lookup_insert_eq. cbn. unfold expired. cbn.
      cbn in Hlive. fold e in Hlive |- *.
      destruct (e <? clock st (S (ticks st))) eqn:Hlt; [lia|].
      rewrite andb_false_r. reflexivity.
    + intros Hpast Hnz. eexists. rewrite getWithExpiry_run. unfold lookup_entry. cbn.
      rewrite lookup_insert_eq. cbn. unfold expired. cbn.
      cbn in Hpast. fold e in Hpast |- *.
      destruct (e <? clock st (S (ticks st))) eqn:Hlt; [|lia].
      destruct (e =? 0) eqn:Hez; [lia|]. cbn.
      split; [reflexivity | apply lookup_delete_eq].
  - intros days Hdays Hlocal st1. unfold st1. clear st1.
    assert (Hwrite : setWithExpiry key v days st =
              (Ok tt, set_sessionStorage
                        (<[key := JSON_stringify (Item v None)]> (sessionStorage st)) st)).
    { rewrite setWithExpiry_run. destruct Hdays as [-> | ->]; reflexivity. }
    rewrite Hwrite. cbn [snd]. rewrite getWithExpiry_run. unfold lookup_entry.
    cbn [localStorage sessionStorage set_sessionStorage]. rewrite Hlocal, lookup_insert_eq.
    reflexivity.
Qed.

Lemma setWithExpiry_then_getWithExpiry_witness :
  fst (getWithExpiry "k" (snd (setWithExpiry "k" (VStr "true") (Int 2) (demo_state 0))))
    = Ok (VStr "true") /\
  fst (getWithExpiry "k" (snd (setWithExpiry "k" (VNumber NaN) (Int 0) (demo_state 0))))
    = Ok VNull.
Proof.
  split.
  - rewrite (proj1 (proj1 (setWithExpiry_then_getWithExpiry "k" (VStr "true") (demo_state 0))
                      2 ltac:(lia))); [reflexivity|].
    vm_compute. discriminate.
  - rewrite (proj2 (setWithExpiry_then_getWithExpiry "k" (VNumber NaN) (demo_state 0))
               (Int 0) (or_introl eq_refl) eq_refl).
    reflexivity.
Defined.

(** ** More on sampling *)

(** X16.  A check of a survey without a usable quarantine length (absent,
    unparsable, zero or negative) writes nothing, whatever the draw and the
    sampling mode: the session store is as before and the durable store has
    at most lost an expired entry.  Such a survey can be selected again at
    once. *)
Theorem check_without_quarantine_length_writes_nothing config survey st :
  quarantine_days survey = None ->
  let st' := snd (passesStorageRules config survey st) in
  sessionStorage st' = sessionStorage st /\ localStorage st' ⊆ localStorage st.
Proof.
  intros Hq. cbn zeta. set (key := quarantine_key config survey).
  destruct (after_read_frame key st) as (_ & Hsess & _).
  pose proof (after_read_local_subseteq key st) as Hsub.
  rewrite passesStorageRules_run. cbn zeta. fold key. rewrite Hq.
  destruct (quarantine_status key st).
  - cbn. rewrite Hsess. split; [reflexivity | exact Hsub].
  - destruct (le _ _); [|destruct (userSampling config)]; cbn; rewrite Hsess;
      (split; [reflexivity | exact Hsub]).
  - destruct (lookup_entry key st) as [[text|it]|]; cbn; split; reflexivity.
Qed.

Lemma check_without_quarantine_length_writes_nothing_witness :
  localStorage
    (snd (passesStorageRules (mkConfig true "neb_" None None)
            (demo_survey "A" "10" "soon" (VInt 1)) (demo_state 50))) ⊆ ∅.
Proof.
  apply (check_without_quarantine_length_writes_nothing (mkConfig true "neb_" None None)
           (demo_survey "A" "10" "soon" (VInt 1)) (demo_state 50)).
  reflexivity.
Defined.

(** X17.  In user-sampling mode an excluded survey is not drawn for again:
    when the check of a survey with a positive quarantine length is lost on
    the draw, the quarantine it writes makes the next check of that survey
    return [false] without a draw, as long as the clock has not passed the
    expiry. *)
Theorem excluded_survey_is_quarantined_in_user_sampling config survey st st' q :
  userSampling config = true ->
  quarantine_status (quarantine_key config survey) st = Clear ->
  passesStorageRules config survey st = (Ok false, st') ->
  quarantine_days survey = Some q ->
  let e := clock st (Nat.pred (ticks st')) + q * 86400 * 1000 in
  localStorage st' !! quarantine_key config survey
    = Some (Json (Item (VStr "true") (Some e))) /\
  (clock st' (ticks st') <= e ->
   exists st2,
     passesStorageRules config survey st' = (Ok false, st2) /\ draws st2 = draws st').
Proof.
  intros Hus Hclear Hrun Hq e. set (key := quarantine_key config survey) in *.
  destruct (after_read_frame key st) as (_ & _ & Hclock & _).
  rewrite passesStorageRules_run in Hrun. cbn zeta in Hrun. fold key in Hrun.
  rewrite Hclear, Hq, Hus in Hrun.
  destruct (le _ _); [discriminate|]. injection Hrun as <-.
  match goal with |- localStorage ?s !! key = _ /\ _ =>
    assert (Hentry : localStorage s !! key = Some (Json (Item (VStr "true") (Some e)))) end.
  { unfold e. cbn. rewrite lookup_insert_eq, Hclock. unfold ms_per_day.
    replace (q * (24 * 60 * 60 * 1000)) with (q * 86400 * 1000) by lia. reflexivity. }
  split; [exact Hentry|].
  intros Hlive.
  match goal with |- exists st2, passesStorageRules _ _ ?s = _ /\ _ =>
    destruct (blocked_check config survey s) as (st2 & Hcheck & Hd2 & _) end.
  - apply (blocking_record _ _ (Some e)); [|exact Hlive].
    unfold lookup_entry. fold key. rewrite Hentry. reflexivity.
  - exists st2. split; assumption.
Qed.

Lemma excluded_survey_is_quarantined_in_user_sampling_witness :
  exists st',
    passesStorageRules (mkConfig true "neb_" None None)
      (demo_survey "A" "10" "7" (VInt 1)) (demo_state 50) = (Ok false, st') /\
    draws (snd (passesStorageRules (mkConfig true "neb_" None None)
                  (demo_survey "A" "10" "7" (VInt 1)) st')) = draws st'.
Proof.
  destruct (passesStorageRules (mkConfig true "neb_" None None)
              (demo_survey "A" "10" "7" (VInt 1)) (demo_state 50)) as [r st'] eqn:Hrun.
  assert (Hr : r = Ok false) by (vm_compute in Hrun; injection Hrun as <- _; reflexivity).
  subst r. exists st'. split; [reflexivity|].
  destruct (excluded_survey_is_quarantined_in_user_sampling
              (mkConfig true "neb_" None None) (demo_survey "A" "10" "7" (VInt 1))
              (demo_state 50) st' 7 eq_refl eq_refl Hrun eq_refl) as [_ Hnext].
  destruct Hnext as (st2 & -> & Hd); [|exact Hd].
  vm_compute in Hrun. injection Hrun as <-. vm_compute. discriminate.
Defined.

(** ** A candidate listed twice *)

Lemma check_absent_excluded config survey st :
  lookup_entry (quarantine_key config survey) st = None ->
  userSampling config = false ->
  le (Int (next_draw st)) (threshold survey) = false ->
  exists st',
    passesStorageRules config survey st = (Ok false, st') /\
    surveyConfigurations st' = surveyConfigurations st /\
    localStorage st' = localStorage st /\ sessionStorage st' = sessionStorage st /\
    clock st' = clock st /\ ticks st' = ticks st /\
    random st' = random st /\ draws st' = S (draws st).
Proof.
  intros Hnone Hus Hout. eexists. split.
  - rewrite passesStorageRules_run. cbn zeta. unfold quarantine_status.
    rewrite Hnone. cbn [entry_status]. rewrite Hout, Hus. reflexivity.
  - rewrite after_read_spec, Hnone. repeat split.
Qed.

Lemma check_absent_included config survey st :
  lookup_entry (quarantine_key config survey) st = None ->
  le (Int (next_draw st)) (threshold survey) = true ->
  exists st',
    passesStorageRules config survey st = (Ok true, st') /\ draws st' = S (draws st).
Proof.
  intros Hnone Hin.
  pose proof (passesStorageRules_run config survey st) as Hrun. cbn zeta in Hrun.
  unfold quarantine_status in Hrun. rewrite Hnone in Hrun. cbn [entry_status] in Hrun.
  rewrite Hin, after_read_spec, Hnone in Hrun.
  destruct (quarantine_days survey); eexists; (split; [exact Hrun | reflexivity]).
Qed.

(** X18.  Listing a candidate twice gives it a second draw.  In
    event-sampling mode, a survey without quarantine entry that loses the
    first draw is checked again at its second occurrence, and when it wins
    that draw it is the survey returned, two draws having been made. *)
Theorem duplicate_candidate_is_drawn_again config candidates st surveyId raw p t :
  normalizeSurveyIdToArray candidates = [surveyId; surveyId] ->
  surveyConfigurations st !! surveyId = Some raw ->
  priority_number raw = Int p -> -1 < p ->
  userSampling config = false ->
  lookup_entry (quarantine_key config raw) st = None ->
  threshold raw = Int t ->
  t < random st (draws st) ->
  random st (S (draws st)) <= t ->
  fst (chooseSurvey config candidates st) = Ok (Some (normalize raw)) /\
  draws (snd (chooseSurvey config candidates st)) = (2 + draws st)%nat.
Proof.
  intros Hids Hraw Hp Hpos Hus Hnone Ht Hlose Hwin.
  destruct (normalize_fields raw) as (Hsid & Hpct & Hqu).
  assert (Hkey : quarantine_key config (normalize raw) = quarantine_key config raw).
  { unfold quarantine_key. rewrite Hsid. reflexivity. }
  assert (Hthr : threshold (normalize raw) = Int t).
  { unfold threshold in *. rewrite Hpct. exact Ht. }
  set (st1 := arrive surveyId raw st).
  destruct (check_absent_excluded config (normalize raw) st1)
    as (st2 & Hcheck1 & Hreg2 & Hloc2 & Hses2 & Hclk2 & Htk2 & Hrnd2 & Hdr2).
  { rewrite Hkey. exact Hnone. }
  { exact Hus. }
  { rewrite Hthr. unfold next_draw. cbn. apply Z.leb_gt. exact Hlose. }
  assert (Hraw2 : surveyConfigurations st2 !! surveyId = Some (normalize raw)).
  { rewrite Hreg2. apply lookup_insert_eq. }
  set (st3 := arrive surveyId (normalize raw) st2).
  destruct (check_absent_included config (normalize (normalize raw)) st3)
    as (st4 & Hcheck2 & Hdr4).
  { rewrite normalize_idem, Hkey. unfold lookup_entry, st3. cbn.
    rewrite Hloc2, Hses2. exact Hnone. }
  { rewrite normalize_idem, Hthr. unfold next_draw, st3. cbn.
    rewrite Hrnd2, Hdr2. cbn. apply Z.leb_le. exact Hwin. }
  rewrite chooseSurvey_run, Hids. cbv beta iota zeta.
  rewrite (loop_resolved _ _ _ _ _ _ _ Hraw), Hp. cbn [gt].
  destruct (-1 <? p) eqn:Hlt; [|lia]. fold st1. rewrite Hcheck1.
  rewrite (loop_resolved _ _ _ _ _ _ _ Hraw2), priority_number_normalize, Hp. cbn [gt].
  rewrite Hlt. fold st3. rewrite Hcheck2. cbn [chooseSurvey_loop].
  rewrite normalize_idem. cbn. split; [reflexivity|].
  rewrite Hdr4. unfold st3. cbn. rewrite Hdr2. reflexivity.
Qed.

Lemma duplicate_candidate_is_drawn_again_witness :
  fst (chooseSurvey default_config (VStr "C,C")
         (mkState {["C" := demo_survey "C" "50" "0" (VInt 1)]} ∅ ∅ (fun _ => 1000) 0
            (fun n => match n with O => 60 | S _ => 10 end) 0 []))
  = Ok (Some (demo_survey "C" "50" "0" (VInt 1))).
Proof.
  apply (duplicate_candidate_is_drawn_again default_config (VStr "C,C")
           (mkState {["C" := demo_survey "C" "50" "0" (VInt 1)]} ∅ ∅ (fun _ => 1000) 0
              (fun n => match n with O => 60 | S _ => 10 end) 0 [])
           "C" (demo_survey "C" "50" "0" (VInt 1)) 1 50);
    try reflexivity; cbn; lia.
Defined.

(** ** Replacing the registry *)

Lemma getWithExpiry_registry key r st :
  getWithExpiry key (set_surveyConfigurations r st) =
  (fst (getWithExpiry key st), set_surveyConfigurations r (snd (getWithExpiry key st))).
Proof.
  rewrite !getWithExpiry_run.
  change (lookup_entry key (set_surveyConfigurations r st)) with (lookup_entry key st).
  destruct (lookup_entry key st) as [[text|it]|]; [|cbn zeta|reflexivity].
  - destruct (String.eqb text EmptyString); reflexivity.
  - change (clock (set_surveyConfigurations r st)) with (clock st).
    change (ticks (set_surveyConfigurations r st)) with (ticks st).
    destruct (expired _ it); reflexivity.
Qed.

Lemma passesStorageRules_registry config survey r st :
  passesStorageRules config survey (set_surveyConfigurations r st) =
  (fst (passesStorageRules config survey st),
   set_surveyConfigurations r (snd (passesStorageRules config survey st))).
Proof.
  set (key := quarantine_key config survey).
  assert (Hread : after_read key (set_surveyConfigurations r st)
                  = set_surveyConfigurations r (after_read key st)).
  { unfold after_read. rewrite getWithExpiry_registry. reflexivity. }
  rewrite !passesStorageRules_run. cbn zeta. fold key.
  change (quarantine_status key (set_surveyConfigurations r st))
    with (quarantine_status key st).
  change (lookup_entry key (set_surveyConfigurations r st)) with (lookup_entry key st).
  change (next_draw (set_surveyConfigurations r st)) with (next_draw st).
  change (draws (set_surveyConfigurations r st)) with (draws st).
  rewrite Hread.
  destruct (quarantine_status key st).
  - reflexivity.
  - destruct (le _ _); [|destruct (userSampling config)];
      [destruct (quarantine_days survey)| destruct (quarantine_days survey) |]; reflexivity.
  - destruct (lookup_entry key st) as [[text|it]|]; reflexivity.
Qed.

(** X19.  Replacing the registry does not touch quarantine state: both
    stores are as before, and the eligibility check of any survey gives the
    same answer and makes the same writes as it would have without the
    replacement.  After installing something that is not an object, every
    non-empty candidate list yields [null]. *)
Theorem setSurveyConfigurations_keeps_quarantine config configurations survey st :
  let st1 := snd (setSurveyConfigurations configurations st) in
  localStorage st1 = localStorage st /\ sessionStorage st1 = sessionStorage st /\
  fst (passesStorageRules config survey st1) = fst (passesStorageRules config survey st) /\
  localStorage (snd (passesStorageRules config survey st1))
    = localStorage (snd (passesStorageRules config survey st)) /\
  sessionStorage (snd (passesStorageRules config survey st1))
    = sessionStorage (snd (passesStorageRules config survey st)) /\
  (configurations = None ->
   forall candidates, fst (chooseSurvey config candidates st1) = Ok None).
Proof.
  cbn zeta. unfold setSurveyConfigurations. cbn [modify snd].
  rewrite passesStorageRules_registry. cbn [fst snd].
  repeat split.
  intros -> candidates. rewrite chooseSurvey_run.
  destruct (normalizeSurveyIdToArray candidates) as [|y ys]; [reflexivity|].
  cbv beta iota zeta. rewrite loop_all_missing; [reflexivity|].
  apply List.Forall_forall. intros surveyId _. apply lookup_empty.
Qed.

Lemma setSurveyConfigurations_keeps_quarantine_witness :
  fst (chooseSurvey default_config (VStr "A,B")
         (snd (setSurveyConfigurations None (demo_state 50)))) = Ok None.
Proof.
  apply (setSurveyConfigurations_keeps_quarantine default_config None
           (demo_survey "A" "100" "21" (VInt 1)) (demo_state 50)).
  reflexivity.
Defined.
